(** * The cashflow engine of the report generator

    A shallow embedding of the financial helpers of the report server
    ([num], [fmt], [pct], [pmtAnnual], [calcStampDuty], [calcMortgageFee],
    [calcLMI], [calculateCashflow]) and the properties their specification
    states about them; then of the code around them: the first version of
    the calculator, the two cashflow pages of a property report, the names
    of the files in the store ([makeSafeName], [makeTimestamp],
    [makePropertyPath], [makeSuburbPath], [makeSuburbDataPath]),
    [parseAddress], and the readers of scraped figures ([fmtInsight],
    [parseRental], [parsePrice], the cashflow inputs of
    [mapScraperToReport]), with the properties that the code shows.

    Conventions of the embedding.
    - A JavaScript Number is a [number]: an exact rational, one of the two
      infinities, or NaN.  Arithmetic is exact: binary64 rounding, overflow
      and the sign of zero are not represented (a zero divisor is read as +0).
    - A JavaScript string is a [string] of 8-bit characters; case mapping
      and white space are those of ASCII.
    - A JavaScript object used as a record of named inputs is a
      [gmap string value]; an absent key reads as [VUndefined].
    - A call that raises a TypeError returns [Throw].

    The file has three parts: the embedding of the source, the vocabulary
    in which the properties are stated, and the properties. *)

From Stdlib Require Import ZArith QArith Qround Qabs Qpower Lqa Lia Bool List Ascii String SpecFloat.
From stdpp Require Import gmap strings.

Local Open Scope Z_scope.

(** * Part 1: the embedding of the source *)

(** ** Numbers *)

Inductive number : Type :=
  | Fin (q : Q)
  | PInf
  | NInf
  | NaN.

Declare Scope js_scope.
Delimit Scope js_scope with js.
Bind Scope js_scope with number.

(** Decimal literals of the source are read as exact rationals. *)
Definition number_of_decimal (n : Number.number) : option number :=
  match n with
  | Number.Decimal (Decimal.Decimal i f) =>
      Some (Fin (Z.of_int (Decimal.app_int i f)
                 # Z.to_pos (10 ^ Z.of_nat (Decimal.nb_digits f))))
  | _ => None
  end.

Definition number_to_decimal (n : number) : option Number.number := None.

Number Notation number number_of_decimal number_to_decimal : js_scope.

Module Num.

Definition sgn (q : Q) : Z := Z.sgn (Qnum q).

Definition is_zero (q : Q) : bool := Qnum q =? 0.

(** The infinity of the sign of [z]; NaN when [z] is zero. *)
Definition inf_of_sign (z : Z) : number :=
  match z with
  | Z0 => NaN
  | Zpos _ => PInf
  | Zneg _ => NInf
  end.

Definition sign (a : number) : Z :=
  match a with
  | Fin q => sgn q
  | PInf => 1
  | NInf => -1
  | NaN => 0
  end.

Definition neg (a : number) : number :=
  match a with
  | Fin q => Fin (- q)
  | PInf => NInf
  | NInf => PInf
  | NaN => NaN
  end.

Definition add (a b : number) : number :=
  match a, b with
  | NaN, _ | _, NaN => NaN
  | Fin x, Fin y => Fin (x + y)
  | PInf, NInf | NInf, PInf => NaN
  | PInf, _ | _, PInf => PInf
  | NInf, _ | _, NInf => NInf
  end.

Definition sub (a b : number) : number := add a (neg b).

Definition mul (a b : number) : number :=
  match a, b with
  | NaN, _ | _, NaN => NaN
  | Fin x, Fin y => Fin (x * y)
  | _, _ => inf_of_sign (sign a * sign b)
  end.

Definition div (a b : number) : number :=
  match a, b with
  | NaN, _ | _, NaN => NaN
  | Fin x, Fin y => if is_zero y then inf_of_sign (sgn x) else Fin (x / y)
  | Fin _, _ => Fin 0
  | _, Fin y => inf_of_sign (sign a * (if is_zero y then 1 else sgn y))
  | _, _ => NaN
  end.

(** Comparisons: every comparison with NaN is false. *)
Definition leb (a b : number) : bool :=
  match a, b with
  | NaN, _ | _, NaN => false
  | Fin x, Fin y => Qle_bool x y
  | NInf, _ | _, PInf => true
  | _, _ => false
  end.

Definition ltb (a b : number) : bool :=
  match a, b with
  | NaN, _ | _, NaN => false
  | Fin x, Fin y => negb (Qle_bool y x)
  | PInf, _ | _, NInf => false
  | _, _ => true
  end.

Definition geb (a b : number) : bool := leb b a.
Definition gtb (a b : number) : bool := ltb b a.

(** [a === b] on Numbers. *)
Definition eqb (a b : number) : bool :=
  match a, b with
  | Fin x, Fin y => Qeq_bool x y
  | PInf, PInf | NInf, NInf => true
  | _, _ => false
  end.

(** ToBoolean on a Number: 0 and NaN are falsy. *)
Definition truthy (a : number) : bool :=
  match a with
  | Fin q => negb (is_zero q)
  | PInf | NInf => true
  | NaN => false
  end.

(** [Math.abs], [Math.ceil], [Math.round] (ties go up). *)
Definition abs (a : number) : number :=
  match a with
  | Fin q => Fin (Qabs q)
  | PInf | NInf => PInf
  | NaN => NaN
  end.

Definition ceil (a : number) : number :=
  match a with
  | Fin q => Fin (inject_Z (Qceiling q))
  | _ => a
  end.

Definition round (a : number) : number :=
  match a with
  | Fin q => Fin (inject_Z (Qfloor (q + (1 # 2))))
  | _ => a
  end.

(** [Math.pow(a, n)] for a non-negative whole exponent [n]. *)
Definition pow (a : number) (n : nat) : number :=
  match n with
  | O => Fin 1
  | S _ =>
      match a with
      | Fin q => Fin (q ^ Z.of_nat n)
      | PInf => PInf
      | NInf => if Nat.even n then PInf else NInf
      | NaN => NaN
      end
  end.

(** The equality of the values denoted: rationals up to [Qeq]. *)
Definition equiv (a b : number) : Prop :=
  match a, b with
  | Fin x, Fin y => (x == y)%Q
  | PInf, PInf | NInf, NInf | NaN, NaN => True
  | _, _ => False
  end.

End Num.

Infix "+" := Num.add : js_scope.
Infix "-" := Num.sub : js_scope.
Infix "*" := Num.mul : js_scope.
Infix "/" := Num.div : js_scope.
Infix "<=?" := Num.leb : js_scope.
Infix "<?" := Num.ltb : js_scope.
Infix ">=?" := Num.geb : js_scope.
Infix ">?" := Num.gtb : js_scope.
Infix "===" := Num.eqb (at level 70, no associativity) : js_scope.
Infix "≈" := Num.equiv (at level 70, no associativity) : js_scope.

(** ** Values and exceptions *)

Inductive value : Type :=
  | VUndefined
  | VNull
  | VBool (b : bool)
  | VNum (n : number)
  | VStr (s : string).

Inductive error : Type := TypeError.

Inductive result (A : Type) : Type :=
  | Return (a : A)
  | Throw (e : error).

Arguments Return {A} a.
Arguments Throw {A} e.

(** ToBoolean. *)
Definition truthy (v : value) : bool :=
  match v with
  | VUndefined | VNull => false
  | VBool b => b
  | VNum n => Num.truthy n
  | VStr s => negb (s =? "")%string
  end.

(** [v != null]. *)
Definition not_null (v : value) : bool :=
  match v with
  | VUndefined | VNull => false
  | _ => true
  end.

(** [a || b]. *)
Definition or_else (a b : value) : value := if truthy a then a else b.

(** An input object: a finite map from property names to values. *)
Definition get (o : gmap string value) (k : string) : value :=
  default VUndefined (o !! k).

(** ** Strings *)

Definition is_white (c : ascii) : bool :=
  let n := N_of_ascii c in ((9 <=? n) && (n <=? 13) || (n =? 32))%N.

Definition is_digit (c : ascii) : bool :=
  let n := N_of_ascii c in ((48 <=? n) && (n <=? 57))%N.

Definition upper (c : ascii) : ascii :=
  let n := N_of_ascii c in
  if ((97 <=? n) && (n <=? 122))%N then ascii_of_N (n - 32) else c.

Fixpoint toUpperCase (s : string) : string :=
  match s with
  | EmptyString => EmptyString
  | String c s' => String (upper c) (toUpperCase s')
  end.

Fixpoint trimStart (s : string) : string :=
  match s with
  | String c s' => if is_white c then trimStart s' else s
  | EmptyString => EmptyString
  end.

Fixpoint trimEnd (s : string) : string :=
  match s with
  | EmptyString => EmptyString
  | String c s' =>
      match trimEnd s' with
      | EmptyString => if is_white c then EmptyString else String c EmptyString
      | r => String c r
      end
  end.

Definition trim (s : string) : string := trimEnd (trimStart s).

(** [s.replace(/[,$%]/g, "")]. *)
Fixpoint strip_symbols (s : string) : string :=
  match s with
  | EmptyString => EmptyString
  | String c s' =>
      if (c =? ",")%char || (c =? "$")%char || (c =? "%")%char
      then strip_symbols s'
      else String c (strip_symbols s')
  end.

(** [String(v)] for a value that is not a number; [num] returns a number
    before it reaches this conversion. *)
Definition to_String (v : value) : string :=
  match v with
  | VStr s => s
  | VBool true => "true"
  | VBool false => "false"
  | VNull => "null"
  | _ => "undefined"
  end.

(** *** parseFloat *)

Definition digit_val (c : ascii) : Z := Z.of_N (N_of_ascii c) - 48.

(** Reads a run of decimal digits: the value read so far, the number of
    digits read, and the rest of the string. *)
Fixpoint read_digits (acc : Z) (cnt : nat) (s : string) : Z * nat * string :=
  match s with
  | String c s' =>
      if is_digit c then read_digits (10 * acc + digit_val c) (S cnt) s'
      else (acc, cnt, s)
  | EmptyString => (acc, cnt, s)
  end.

Definition read_sign (s : string) : bool * string :=
  match s with
  | String "-" s' => (true, s')
  | String "+" s' => (false, s')
  | _ => (false, s)
  end.

(** The exponent part [e|E [+|-] digits], 0 when there is none. *)
Definition read_exponent (s : string) : Z :=
  match s with
  | String c s' =>
      if (c =? "e")%char || (c =? "E")%char then
        let '(neg, s'') := read_sign s' in
        let '(e, cnt, _) := read_digits 0 0 s'' in
        match cnt with
        | O => 0
        | S _ => if neg then - e else e
        end
      else 0
  | EmptyString => 0
  end.

(** The longest prefix of the string, after leading white space, that is a
    decimal literal; NaN when there is none. *)
Definition parseFloat (s : string) : number :=
  let '(neg, s1) := read_sign (trimStart s) in
  if String.prefix "Infinity" s1 then (if neg then NInf else PInf)
  else
    let '(i, ni, s2) := read_digits 0 0 s1 in
    let '(m, nf, s3) :=
      match s2 with
      | String "." s' => read_digits i 0 s'
      | _ => (i, O, s2)
      end in
    match (ni + nf)%nat with
    | O => NaN
    | S _ =>
        let e := read_exponent s3 in
        let q := (inject_Z m * 10 ^ (e - Z.of_nat nf))%Q in
        Fin (if neg then - q else q)
    end.

(** ** Helpers of the report server *)

Local Open Scope js_scope.

(** [num(v)]: a number as it is, a falsy value as 0, anything else parsed
    after the symbols [,], [$] and [%] are removed, NaN and 0 as 0. *)
Definition num (v : value) : number :=
  match v with
  | VNum n => n
  | _ =>
      if negb (truthy v) then 0
      else
        let n := parseFloat (strip_symbols (to_String v)) in
        if Num.truthy n then n else 0
  end.

(** [pct(v)]. *)
Definition pct (v : value) : number :=
  let n := num v in
  if n >? 1 then n / 100 else n.

(** ** Formatting numbers *)

Local Close Scope js_scope.
Local Open Scope string_scope.

Definition digit_char (d : Z) : ascii := ascii_of_N (48 + Z.to_N d).

(** The decimal digits of a natural number, most significant first. *)
Fixpoint digits_pos (p : positive) (fuel : nat) (acc : string) : string :=
  match fuel with
  | O => acc
  | S fuel' =>
      let acc' := String (digit_char (Zpos p mod 10)) acc in
      match Zpos p / 10 with
      | Zpos p' => digits_pos p' fuel' acc'
      | _ => acc'
      end
  end.

Definition digits (n : Z) : string :=
  match n with
  | Zpos p => digits_pos p (Pos.size_nat p) ""
  | _ => "0"
  end.

(** A comma before every group of three digits, counted from the right. *)
Fixpoint group (s : string) : string :=
  match s with
  | EmptyString => EmptyString
  | String c s' =>
      String c
        (match (String.length s' mod 3)%nat, s' with
         | O, String _ _ => "," ++ group s'
         | _, _ => group s'
         end)
  end.

Fixpoint zeros (n : nat) : string :=
  match n with
  | O => ""
  | S n' => String "0" (zeros n')
  end.

(** [|q|] scaled by [10^f] and rounded to a whole number, ties away from
    zero. *)
Definition scaled (f : nat) (q : Q) : Z :=
  Qfloor (Qabs q * inject_Z (10 ^ Z.of_nat f) + (1 # 2)).

Definition minus_sign (q : Q) : string :=
  if Qle_bool 0 q then "" else "-".

(** The fraction digits of [n] hundredths (or [10^-f]-ths), [f] of them. *)
Definition fraction (f : nat) (n : Z) : string :=
  let m := digits (n mod 10 ^ Z.of_nat f) in
  zeros (f - String.length m) ++ m.

(** The host environment: the clock, and the Number-to-String conversion
    where it depends on the binary64 digits of the value (a fraction, or a
    magnitude of [10^21] and more). *)
Record host : Type := {
  today : string;
  shortest : Q -> string;
}.

(** [n.toLocaleString("en-AU", {minimumFractionDigits: 2,
    maximumFractionDigits: 2})]. *)
Definition toLocaleString2 (a : number) : string :=
  match a with
  | NaN => "NaN"
  | PInf => "∞"
  | NInf => "-∞"
  | Fin q =>
      let n := scaled 2 q in
      minus_sign q ++ group (digits (n / 100)) ++ "." ++ fraction 2 n
  end.

Definition fmt (n : number) : string := toLocaleString2 n.

(** Number::toString. *)
Definition toString (h : host) (a : number) : string :=
  match a with
  | NaN => "NaN"
  | PInf => "Infinity"
  | NInf => "-Infinity"
  | Fin q =>
      if Qeq_bool (inject_Z (Qfloor q)) q && negb (Qle_bool (inject_Z (10 ^ 21)) (Qabs q))
      then (if (Qfloor q <? 0)%Z then "-" else "") ++ digits (Z.abs (Qfloor q))
      else shortest h q
  end.

(** [a.toFixed(f)]. *)
Definition toFixed (h : host) (a : number) (f : nat) : string :=
  match a with
  | Fin q =>
      if Qle_bool (inject_Z (10 ^ 21)) (Qabs q)
      then minus_sign q ++ toString h (Fin (Qabs q))
      else
        let n := scaled f q in
        minus_sign q ++ digits (n / 10 ^ Z.of_nat f)
          ++ match f with
             | O => ""
             | S _ => "." ++ fraction f n
             end
  | _ => toString h a
  end.

(** ** The amortisation payment *)

Local Close Scope string_scope.
Local Open Scope js_scope.

(** A whole number as a Number. *)
Definition of_nat (n : nat) : number := Fin (inject_Z (Z.of_nat n)).

(** [pmtAnnual(annualRate, years, principal)], for a whole number of
    [years]. *)
Definition pmtAnnual (annualRate : number) (years : nat) (principal : number) : number :=
  let r := annualRate / 12 in
  let n := (years * 12)%nat in
  if r === 0 then principal / of_nat n * 12
  else
    let monthlyPmt :=
      principal * (r * Num.pow (1 + r) n) / (Num.pow (1 + r) n - 1) in
    monthlyPmt * 12.

(** ** Defaults by state and overall *)

Definition LANDLORD_INS : gmap string number :=
  list_to_map
    [("WA", 1500); ("QLD", 2000); ("VIC", 2000); ("NSW", 1500);
     ("SA", 1500); ("TAS", 1500)]%string.

Definition MGMT_FEE_PCT : gmap string number :=
  list_to_map
    [("WA", 0.09); ("QLD", 0.07); ("VIC", 0.055); ("NSW", 0.055);
     ("SA", 0.07); ("TAS", 0.07)]%string.

Module DEFAULTS.
Definition depositPercent : number := 0.20.
Definition legals : number := 1500.
Definition pestReport : number := 500.
Definition buyersAgencyFee : number := 15000.
Definition councilAnnually : number := 3000.
Definition buildingInsAnnually : number := 1500.
Definition otherAnnually : number := 2000.
Definition normalIORate : number := 0.0625.
Definition normalPIRate : number := 0.06.
Definition smsfIORate : number := 0.0725.
Definition smsfPIRate : number := 0.07.
Definition normalTaxBracket : number := 0.42.
Definition smsfTaxBracket : number := 0.
End DEFAULTS.

(** ** Stamp duty *)

(** [state || "NSW"] on a string: the empty string is falsy. *)
Definition or_NSW (state : string) : string :=
  if (state =? "")%string then "NSW"%string else state.

(** [calcStampDuty(price, state)].  The state is a string, as at the call
    in [calculateCashflow]; a missing state behaves as the empty string. *)
Definition calcStampDuty (price : number) (state : string) : number :=
  let s := trim (toUpperCase (or_NSW state)) in
  let p := price in
  if (s =? "NSW")%string then
    if p <=? 17000 then p * 0.0125
    else if p <=? 36000 then 212.50 + (p - 17000) * 0.015
    else if p <=? 97000 then 497.50 + (p - 36000) * 0.0175
    else if p <=? 364000 then 1565 + (p - 97000) * 0.035
    else if p <=? 1214000 then 10912.50 + (p - 364000) * 0.045
    else if p <=? 3636000 then 49237.50 + (p - 1214000) * 0.055
    else 182447.50 + (p - 3636000) * 0.07
  else if (s =? "VIC")%string then
    if p <=? 25000 then p * 0.014
    else if p <=? 130000 then 350 + (p - 25000) * 0.024
    else if p <=? 960000 then 2870 + (p - 130000) * 0.06
    else if p <=? 2000000 then p * 0.055
    else 110000 + (p - 2000000) * 0.065
  else if (s =? "QLD")%string then
    if p <=? 5000 then 0
    else if p <=? 75000 then 1.50 * ((p - 5000) / 100)
    else if p <=? 540000 then 1050 + 3.50 * ((p - 75000) / 100)
    else if p <=? 1000000 then 17325 + 4.50 * ((p - 540000) / 100)
    else 38025 + 5.75 * ((p - 1000000) / 100)
  else if (s =? "WA")%string then
    if p <=? 120000 then p * 0.019
    else if p <=? 150000 then 2280 + (p - 120000) * 0.0285
    else if p <=? 360000 then 3135 + (p - 150000) * 0.038
    else if p <=? 725000 then 11115 + (p - 360000) * 0.0475
    else 28453 + (p - 725000) * 0.0515
  else if (s =? "SA")%string then
    if p <=? 12000 then p * 0.01
    else if p <=? 30000 then 120 + (p - 12000) * 0.02
    else if p <=? 50000 then 480 + (p - 30000) * 0.03
    else if p <=? 100000 then 1080 + (p - 50000) * 0.035
    else if p <=? 200000 then 2830 + (p - 100000) * 0.04
    else if p <=? 250000 then 6830 + (p - 200000) * 0.045
    else if p <=? 300000 then 9080 + (p - 250000) * 0.05
    else if p <=? 500000 then 11330 + (p - 300000) * 0.05
    else 21330 + (p - 500000) * 0.055
  else if (s =? "TAS")%string then
    if p <=? 3000 then 50
    else if p <=? 25000 then 50 + (p - 3000) * 0.0175
    else if p <=? 75000 then 435 + (p - 25000) * 0.025
    else if p <=? 200000 then 1685 + (p - 75000) * 0.035
    else if p <=? 375000 then 6060 + (p - 200000) * 0.04
    else if p <=? 725000 then 13060 + (p - 375000) * 0.0425
    else 27935 + (p - 725000) * 0.045
  else if (s =? "ACT")%string then
    if p <=? 260000 then p * 0.006 * (p / 100)
    else if p <=? 300000 then p * 0.02273
    else if p <=? 500000 then p * 0.0344
    else if p <=? 750000 then p * 0.0419
    else if p <=? 1000000 then p * 0.0458
    else if p <=? 1455000 then p * 0.0494
    else p * 0.055
  else if (s =? "NT")%string then
    let v := p / 1000 in
    if p <=? 525000 then (0.06571441 * v * v + 15 * v) * 1
    else p * 0.0495
  else p * 0.04.

(** ** Mortgage and transfer registration fee *)

(** [transfer_fee, mortgage_reg] by state. *)
Definition fees : gmap string (number * number) :=
  list_to_map
    [("NSW", (175.70, 175.70)); ("VIC", (128.50, 128.50));
     ("QLD", (238.14, 238.14)); ("WA", (203.00, 203.00));
     ("SA", (187.00, 187.00)); ("TAS", (217.00, 152.19));
     ("ACT", (166.00, 166.00)); ("NT", (152.00, 165.00))]%string.

(** [calcMortgageFee(state, price)], with the state a string as above. *)
Definition calcMortgageFee (state : string) (price : number) : number :=
  let s := toUpperCase (or_NSW state) in
  let '(tf, mr) := default (175, 175) (fees !! s) in
  let total := tf * 2 + mr in
  Num.ceil (total / 100) * 100.

(** ** Lender's mortgage insurance *)

(** [calcLMI(depositPct, loan)]. *)
Definition calcLMI (depositPct loan : number) : number :=
  if depositPct >=? 0.20 then 0
  else if depositPct >=? 0.15 then 0.01 * loan
  else if depositPct >=? 0.12 then 0.017 * loan
  else if depositPct >=? 0.10 then 0.025 * loan
  else 0.035 * loan.

(** ** The cashflow calculator *)

Local Open Scope string_scope.

(** [input.k != null ? num(input.k) : d] and its [pct] twin. *)
Definition num_or (input : gmap string value) (k : string) (d : number) : number :=
  if not_null (get input k) then num (get input k) else d.

Definition pct_or (input : gmap string value) (k : string) (d : number) : number :=
  if not_null (get input k) then pct (get input k) else d.

(** [a || b] on Numbers, and on a table entry that may be missing. *)
Definition num_or_else (a b : number) : number :=
  if Num.truthy a then a else b.

Definition entry_or_else (a : option number) (b : number) : number :=
  match a with
  | Some n => num_or_else n b
  | None => b
  end.

(** The constants that the body of [calculateCashflow] computes. *)
Record locals : Type := {
  price : number;
  depositPct : number;
  deposit : number;
  loan : number;
  lvrPct : number;
  stampDuty : number;
  mortgageFee : number;
  lmi : number;
  legals : number;
  pestReport : number;
  strataReport : number;
  buyersAgencyFee : number;
  renovation : number;
  totalFunds : number;
  lowerRentWk : number;
  higherRentWk : number;
  lowerRentAnn : number;
  higherRentAnn : number;
  yieldBase : number;
  yieldLow : number;
  yieldHigh : number;
  councilAnn : number;
  strataAnn : number;
  buildingInsAnn : number;
  landlordInsAnn : number;
  otherAnn : number;
  mgmtPct : number;
  mgmtAnn : number;
  ioRate : number;
  piRate : number;
  ioAnn : number;
  piAnn : number;
  totalExpAnn : number;
  totalExpLabel : value;
  cfBTLowAnn : number;
  cfBTHighAnn : number;
  taxBracket : number;
  cfATLowAnn : number;
  cfATHighAnn : number;
}.

(** The body of [calculateCashflow] up to its [return], for the
    normalised state code [st]. *)
Definition cashflow_locals (input : gmap string value) (st : string)
    (isSMSF : value) : locals :=
  let price := num (get input "purchasePrice") in
  let depositPct := pct_or input "depositPercent" DEFAULTS.depositPercent in
  let deposit := price * depositPct in
  let loan := price * (1 - depositPct) in
  let lvrPct := (1 - depositPct) * 100 in

  let stampDuty := num_or input "stampDuty" (calcStampDuty price st) in
  let mortgageFee := num_or input "mortgageFee" (calcMortgageFee st price) in
  let lmi := num_or input "lmi" (calcLMI depositPct loan) in
  let legals := num_or input "legals" DEFAULTS.legals in
  let pestReport := num_or input "pestReport" DEFAULTS.pestReport in
  let strataReport := num (get input "strataReport") in
  let buyersAgencyFee := num_or input "buyersAgencyFee" DEFAULTS.buyersAgencyFee in
  let renovation := num (get input "renovation") in
  let totalFunds :=
    deposit + stampDuty + mortgageFee + lmi + legals + pestReport
    + strataReport + buyersAgencyFee + renovation in

  let lowerRentWk := num (get input "lowerRentWeekly") in
  let higherRentWk := num_or_else (num (get input "higherRentWeekly")) lowerRentWk in
  let lowerRentAnn := lowerRentWk * 52 in
  let higherRentAnn := higherRentWk * 52 in

  let yieldBase := price + renovation in
  let yieldLow := if yieldBase >? 0 then (lowerRentAnn / yieldBase) * 100 else 0 in
  let yieldHigh := if yieldBase >? 0 then (higherRentAnn / yieldBase) * 100 else 0 in

  let councilAnn := num_or input "councilAnnually" DEFAULTS.councilAnnually in
  let strataAnn := num (get input "strataAnnually") in
  let buildingInsAnn := num_or input "buildingInsAnnually" DEFAULTS.buildingInsAnnually in
  let landlordInsAnn :=
    num_or input "landlordInsAnnually" (entry_or_else (LANDLORD_INS !! st) 1500) in
  let otherAnn := num_or input "otherAnnually" DEFAULTS.otherAnnually in

  let mgmtPct := pct_or input "mgmtFeePercent" (entry_or_else (MGMT_FEE_PCT !! st) 0.055) in
  let mgmtAnn := lowerRentAnn * mgmtPct in

  let ioRate :=
    if truthy isSMSF then pct_or input "interestOnlyRate" DEFAULTS.smsfIORate
    else pct_or input "interestOnlyRate" DEFAULTS.normalIORate in
  let piRate :=
    if truthy isSMSF then pct_or input "principalInterestRate" DEFAULTS.smsfPIRate
    else pct_or input "principalInterestRate" DEFAULTS.normalPIRate in

  let ioAnn := loan * ioRate in
  let piAnn := pmtAnnual piRate 30 loan in

  let totalExpAnn :=
    if truthy isSMSF
    then councilAnn + strataAnn + buildingInsAnn + landlordInsAnn + otherAnn + mgmtAnn + piAnn
    else councilAnn + strataAnn + buildingInsAnn + landlordInsAnn + otherAnn + mgmtAnn + ioAnn in
  let totalExpLabel :=
    if truthy isSMSF
    then or_else (get input "totalExpenseLabel")
           (VStr "*Total Expense (with Principal & Interest loan)")
    else or_else (get input "totalExpenseLabel")
           (VStr "*Total Expense (with Interest Only loan)") in

  let cfBTLowAnn := lowerRentAnn - totalExpAnn in
  let cfBTHighAnn := higherRentAnn - totalExpAnn in

  let taxBracket :=
    if truthy isSMSF then pct_or input "taxBracket" DEFAULTS.smsfTaxBracket
    else pct_or input "taxBracket" DEFAULTS.normalTaxBracket in

  let cfATLowAnn := cfBTLowAnn * (1 - taxBracket) in
  let cfATHighAnn := cfBTHighAnn * (1 - taxBracket) in
  {| price := price; depositPct := depositPct; deposit := deposit; loan := loan;
     lvrPct := lvrPct; stampDuty := stampDuty; mortgageFee := mortgageFee;
     lmi := lmi; legals := legals; pestReport := pestReport;
     strataReport := strataReport; buyersAgencyFee := buyersAgencyFee;
     renovation := renovation; totalFunds := totalFunds;
     lowerRentWk := lowerRentWk; higherRentWk := higherRentWk;
     lowerRentAnn := lowerRentAnn; higherRentAnn := higherRentAnn;
     yieldBase := yieldBase; yieldLow := yieldLow; yieldHigh := yieldHigh;
     councilAnn := councilAnn; strataAnn := strataAnn;
     buildingInsAnn := buildingInsAnn; landlordInsAnn := landlordInsAnn;
     otherAnn := otherAnn; mgmtPct := mgmtPct; mgmtAnn := mgmtAnn;
     ioRate := ioRate; piRate := piRate; ioAnn := ioAnn; piAnn := piAnn;
     totalExpAnn := totalExpAnn; totalExpLabel := totalExpLabel;
     cfBTLowAnn := cfBTLowAnn; cfBTHighAnn := cfBTHighAnn;
     taxBracket := taxBracket; cfATLowAnn := cfATLowAnn;
     cfATHighAnn := cfATHighAnn |}.

(** [const w = (a) => a / 52; const m = (a) => a / 12]. *)
Definition w (a : number) : number := a / 52.
Definition m (a : number) : number := a / 12.

(** [x ? fmt(x) : ""]. *)
Definition fmt_if (x : number) (shown : number) : string :=
  if Num.truthy x then fmt shown else "".

(** The object literal that [calculateCashflow] returns, as the list of its
    properties in source order. *)
Definition cashflow_record (h : host) (input : gmap string value)
    (isSMSF : value) (L : locals) : list (string * value) :=
  let disclaimerRate :=
    if truthy isSMSF then toFixed h (DEFAULTS.smsfPIRate * 100) 0 ++ "%"
    else toFixed h (ioRate L * 100) 0 ++ "%" in
  [ ("date", or_else (get input "date") (VStr (today h)));
    ("purchasePrice", VStr (fmt (price L)));
    ("depositPercent", VStr (toString h (Num.round (depositPct L * 100)) ++ "%"));
    ("lvrPercent", VStr (toString h (Num.round (lvrPct L)) ++ "%"));
    ("loanAmount", VStr (fmt (loan L)));
    ("depositAmount", VStr (fmt (deposit L)));
    ("depositPercentLabel", VStr (toString h (Num.round (depositPct L * 100)) ++ "%"));
    ("stampDuty", VStr (fmt (stampDuty L)));
    ("lmi", VStr (fmt_if (lmi L) (lmi L)));
    ("mortgageFee", VStr (fmt (mortgageFee L)));
    ("legals", VStr (fmt (legals L)));
    ("pestReport", VStr (fmt (pestReport L)));
    ("strataReport", VStr (fmt_if (strataReport L) (strataReport L)));
    ("buyersAgencyFee", VStr (fmt (buyersAgencyFee L)));
    ("renovation", VStr (fmt_if (renovation L) (renovation L)));
    ("totalFundsRequired", VStr (fmt (totalFunds L)));
    ("yieldLowRent", VStr (toFixed h (yieldLow L) 2 ++ "%"));
    ("yieldHighRent", VStr (toFixed h (yieldHigh L) 2 ++ "%"));
    ("lowerRentWeekly", VStr (fmt (lowerRentWk L)));
    ("lowerRentMonthly", VStr (fmt (m (lowerRentAnn L))));
    ("lowerRentAnnually", VStr (fmt (lowerRentAnn L)));
    ("higherRentWeekly", VStr (fmt (higherRentWk L)));
    ("higherRentMonthly", VStr (fmt (m (higherRentAnn L))));
    ("higherRentAnnually", VStr (fmt (higherRentAnn L)));
    ("councilWeekly", VStr (fmt (w (councilAnn L))));
    ("councilMonthly", VStr (fmt (m (councilAnn L))));
    ("councilAnnually", VStr (fmt (councilAnn L)));
    ("strataWeekly", VStr (fmt_if (strataAnn L) (w (strataAnn L))));
    ("strataMonthly", VStr (fmt_if (strataAnn L) (m (strataAnn L))));
    ("strataAnnually", VStr (fmt_if (strataAnn L) (strataAnn L)));
    ("buildingInsWeekly", VStr (fmt_if (buildingInsAnn L) (w (buildingInsAnn L))));
    ("buildingInsMonthly", VStr (fmt_if (buildingInsAnn L) (m (buildingInsAnn L))));
    ("buildingInsAnnually", VStr (fmt_if (buildingInsAnn L) (buildingInsAnn L)));
    ("landlordInsWeekly", VStr (fmt (w (landlordInsAnn L))));
    ("landlordInsMonthly", VStr (fmt (m (landlordInsAnn L))));
    ("landlordInsAnnually", VStr (fmt (landlordInsAnn L)));
    ("otherWeekly", VStr (fmt_if (otherAnn L) (w (otherAnn L))));
    ("otherMonthly", VStr (fmt_if (otherAnn L) (m (otherAnn L))));
    ("otherAnnually", VStr (fmt_if (otherAnn L) (otherAnn L)));
    ("mgmtFeePercent", VStr (toFixed h (mgmtPct L * 100) 2 ++ "%"));
    ("mgmtFeeWeekly", VStr (fmt (w (mgmtAnn L))));
    ("mgmtFeeMonthly", VStr (fmt (m (mgmtAnn L))));
    ("mgmtFeeAnnually", VStr (fmt (mgmtAnn L)));
    ("interestOnlyRate", VStr (toFixed h (ioRate L * 100) 2 ++ "%"));
    ("interestOnlyWeekly", VStr (fmt (w (ioAnn L))));
    ("interestOnlyMonthly", VStr (fmt (m (ioAnn L))));
    ("interestOnlyAnnually", VStr (fmt (ioAnn L)));
    ("principalInterestRate", VStr (toFixed h (piRate L * 100) 2 ++ "%"));
    ("principalInterestWeekly", VStr (fmt (w (piAnn L))));
    ("principalInterestMonthly", VStr (fmt (m (piAnn L))));
    ("principalInterestAnnually", VStr (fmt (piAnn L)));
    ("totalExpenseLabel", totalExpLabel L);
    ("totalExpenseWeekly", VStr (fmt (w (totalExpAnn L))));
    ("totalExpenseMonthly", VStr (fmt (m (totalExpAnn L))));
    ("totalExpenseAnnually", VStr (fmt (totalExpAnn L)));
    ("cfBeforeTaxLowerWeekly", VStr (fmt (Num.abs (w (cfBTLowAnn L)))));
    ("cfBeforeTaxLowerMonthly", VStr (fmt (Num.abs (m (cfBTLowAnn L)))));
    ("cfBeforeTaxLowerAnnually", VStr (fmt (Num.abs (cfBTLowAnn L))));
    ("cfBeforeTaxHigherWeekly", VStr (fmt (Num.abs (w (cfBTHighAnn L)))));
    ("cfBeforeTaxHigherMonthly", VStr (fmt (Num.abs (m (cfBTHighAnn L)))));
    ("cfBeforeTaxHigherAnnually", VStr (fmt (Num.abs (cfBTHighAnn L))));
    ("taxBracket", VStr (toString h (Num.round (taxBracket L * 100)) ++ "%"));
    ("disclaimerRate", VStr disclaimerRate);
    ("cfAfterTaxLowerWeekly", VStr (fmt (Num.abs (w (cfATLowAnn L)))));
    ("cfAfterTaxLowerMonthly", VStr (fmt (Num.abs (m (cfATLowAnn L)))));
    ("cfAfterTaxLowerAnnually", VStr (fmt (Num.abs (cfATLowAnn L))));
    ("cfAfterTaxHigherWeekly", VStr (fmt (Num.abs (w (cfATHighAnn L)))));
    ("cfAfterTaxHigherMonthly", VStr (fmt (Num.abs (m (cfATHighAnn L)))));
    ("cfAfterTaxHigherAnnually", VStr (fmt (Num.abs (cfATHighAnn L)))) ].

(** [(state || "NSW").toUpperCase().trim()]: only a string has the method
    [toUpperCase]. *)
Definition state_code (state : value) : result string :=
  match or_else state (VStr "NSW") with
  | VStr s => Return (trim (toUpperCase s))
  | _ => Throw TypeError
  end.

(** [calculateCashflow(input, state, isSMSF)] in the host environment
    [h]. *)
Definition calculateCashflow (h : host) (input : gmap string value)
    (state isSMSF : value) : result (list (string * value)) :=
  match state_code state with
  | Return st => Return (cashflow_record h input isSMSF (cashflow_locals input st isSMSF))
  | Throw e => Throw e
  end.

(** The value of a property of a returned record. *)
Fixpoint field (k : string) (o : list (string * value)) : value :=
  match o with
  | [] => VUndefined
  | (k', v) :: o' => if (k =? k')%string then v else field k o'
  end.

(** ** The earlier calculator

    The first version of the report server has the same helpers and the
    same [calculateCashflow], except that it has no calculators for the
    stamp duty and the registration fee: it reads both from the input. *)

Module V1.

(** The body of the first [calculateCashflow] up to its [return]. *)
Definition cashflow_locals (input : gmap string value) (st : string)
    (isSMSF : value) : locals :=
  let price := num (get input "purchasePrice") in
  let depositPct := pct_or input "depositPercent" DEFAULTS.depositPercent in
  let deposit := price * depositPct in
  let loan := price * (1 - depositPct) in
  let lvrPct := (1 - depositPct) * 100 in

  let stampDuty := num (get input "stampDuty") in
  let mortgageFee := num (get input "mortgageFee") in
  let lmi := num_or input "lmi" (calcLMI depositPct loan) in
  let legals := num_or input "legals" DEFAULTS.legals in
  let pestReport := num_or input "pestReport" DEFAULTS.pestReport in
  let strataReport := num (get input "strataReport") in
  let buyersAgencyFee := num_or input "buyersAgencyFee" DEFAULTS.buyersAgencyFee in
  let renovation := num (get input "renovation") in
  let totalFunds :=
    deposit + stampDuty + mortgageFee + lmi + legals + pestReport
    + strataReport + buyersAgencyFee + renovation in

  let lowerRentWk := num (get input "lowerRentWeekly") in
  let higherRentWk := num_or_else (num (get input "higherRentWeekly")) lowerRentWk in
  let lowerRentAnn := lowerRentWk * 52 in
  let higherRentAnn := higherRentWk * 52 in

  let yieldBase := price + renovation in
  let yieldLow := if yieldBase >? 0 then (lowerRentAnn / yieldBase) * 100 else 0 in
  let yieldHigh := if yieldBase >? 0 then (higherRentAnn / yieldBase) * 100 else 0 in

  let councilAnn := num_or input "councilAnnually" DEFAULTS.councilAnnually in
  let strataAnn := num (get input "strataAnnually") in
  let buildingInsAnn := num_or input "buildingInsAnnually" DEFAULTS.buildingInsAnnually in
  let landlordInsAnn :=
    num_or input "landlordInsAnnually" (entry_or_else (LANDLORD_INS !! st) 1500) in
  let otherAnn := num_or input "otherAnnually" DEFAULTS.otherAnnually in

  let mgmtPct := pct_or input "mgmtFeePercent" (entry_or_else (MGMT_FEE_PCT !! st) 0.055) in
  let mgmtAnn := lowerRentAnn * mgmtPct in

  let ioRate :=
    if truthy isSMSF then pct_or input "interestOnlyRate" DEFAULTS.smsfIORate
    else pct_or input "interestOnlyRate" DEFAULTS.normalIORate in
  let piRate :=
    if truthy isSMSF then pct_or input "principalInterestRate" DEFAULTS.smsfPIRate
    else pct_or input "principalInterestRate" DEFAULTS.normalPIRate in

  let ioAnn := loan * ioRate in
  let piAnn := pmtAnnual piRate 30 loan in

  let totalExpAnn :=
    if truthy isSMSF
    then councilAnn + strataAnn + buildingInsAnn + landlordInsAnn + otherAnn + mgmtAnn + piAnn
    else councilAnn + strataAnn + buildingInsAnn + landlordInsAnn + otherAnn + mgmtAnn + ioAnn in
  let totalExpLabel :=
    if truthy isSMSF
    then or_else (get input "totalExpenseLabel")
           (VStr "*Total Expense (with Principal & Interest loan)")
    else or_else (get input "totalExpenseLabel")
           (VStr "*Total Expense (with Interest Only loan)") in

  let cfBTLowAnn := lowerRentAnn - totalExpAnn in
  let cfBTHighAnn := higherRentAnn - totalExpAnn in

  let taxBracket :=
    if truthy isSMSF then pct_or input "taxBracket" DEFAULTS.smsfTaxBracket
    else pct_or input "taxBracket" DEFAULTS.normalTaxBracket in

  let cfATLowAnn := cfBTLowAnn * (1 - taxBracket) in
  let cfATHighAnn := cfBTHighAnn * (1 - taxBracket) in
  {| price := price; depositPct := depositPct; deposit := deposit; loan := loan;
     lvrPct := lvrPct; stampDuty := stampDuty; mortgageFee := mortgageFee;
     lmi := lmi; legals := legals; pestReport := pestReport;
     strataReport := strataReport; buyersAgencyFee := buyersAgencyFee;
     renovation := renovation; totalFunds := totalFunds;
     lowerRentWk := lowerRentWk; higherRentWk := higherRentWk;
     lowerRentAnn := lowerRentAnn; higherRentAnn := higherRentAnn;
     yieldBase := yieldBase; yieldLow := yieldLow; yieldHigh := yieldHigh;
     councilAnn := councilAnn; strataAnn := strataAnn;
     buildingInsAnn := buildingInsAnn; landlordInsAnn := landlordInsAnn;
     otherAnn := otherAnn; mgmtPct := mgmtPct; mgmtAnn := mgmtAnn;
     ioRate := ioRate; piRate := piRate; ioAnn := ioAnn; piAnn := piAnn;
     totalExpAnn := totalExpAnn; totalExpLabel := totalExpLabel;
     cfBTLowAnn := cfBTLowAnn; cfBTHighAnn := cfBTHighAnn;
     taxBracket := taxBracket; cfATLowAnn := cfATLowAnn;
     cfATHighAnn := cfATHighAnn |}.

(** The first [calculateCashflow(input, state, isSMSF)]; it returns the
    same object literal. *)
Definition calculateCashflow (h : host) (input : gmap string value)
    (state isSMSF : value) : result (list (string * value)) :=
  match state_code state with
  | Return st => Return (cashflow_record h input isSMSF (cashflow_locals input st isSMSF))
  | Throw e => Throw e
  end.

End V1.

(** ** The two cashflow pages of a property report *)

(** [{ ...a, ...b }]: the properties of [b] replace those of [a]. *)
Definition spread (a b : gmap string value) : gmap string value := b ∪ a.


(** ** File names in the store *)

(** [\w] in a regular expression: a letter, a digit or the underscore. *)
Definition is_word (c : ascii) : bool :=
  let n := N_of_ascii c in
  ((48 <=? n) && (n <=? 57) || (65 <=? n) && (n <=? 90)
   || (97 <=? n) && (n <=? 122) || (n =? 95))%N.

(** [s.replace(/\s+/g, "_")]: one underscore for every maximal run of white
    space.  [in_run] tells that the character before was white space, for
    which the underscore is already written. *)
Fixpoint replace_white_runs (in_run : bool) (s : string) : string :=
  match s with
  | EmptyString => EmptyString
  | String c s' =>
      if is_white c then
        if in_run then replace_white_runs true s'
        else String "_" (replace_white_runs true s')
      else String c (replace_white_runs false s')
  end.

(** [s.replace(/[^...]/g, "")] for the character class [keep]. *)
Fixpoint retain (keep : ascii -> bool) (s : string) : string :=
  match s with
  | EmptyString => EmptyString
  | String c s' => if keep c then String c (retain keep s') else retain keep s'
  end.

Definition is_name_char (c : ascii) : bool := is_word c || (c =? "-")%char.

(** [makeSafeName(name)]. *)
Definition makeSafeName (name : string) : string :=
  retain is_name_char (replace_white_runs false name).

(** The fields of a [Date] that [makeTimestamp] reads; the month counts
    from 0. *)
Record date : Type := {
  getFullYear : N;
  getMonth : N;
  getDate : N;
  getHours : N;
  getMinutes : N;
}.

(** [String(n)] for a natural number, and [s.padStart(n, "0")]. *)
Definition String_N (n : N) : string := digits (Z.of_N n).

Definition padStart (n : nat) (s : string) : string :=
  zeros (n - String.length s) ++ s.

(** [makeTimestamp()] at the local time [d]. *)
Definition makeTimestamp (d : date) : string :=
  String_N (getFullYear d)
  ++ padStart 2 (String_N (getMonth d + 1))
  ++ padStart 2 (String_N (getDate d))
  ++ "_"
  ++ padStart 2 (String_N (getHours d))
  ++ padStart 2 (String_N (getMinutes d)).

Module folders.
Definition property : string := "/Properties Reports/Property Reports (Auto)".
Definition suburb : string := "/Properties Reports/Suburb Reports (Auto)".
Definition other : string := "/Other Reports".
End folders.

(** [parts.filter(Boolean)] on strings: the empty string is falsy. *)
Definition filter_Boolean (parts : list string) : list string :=
  List.filter (fun s => negb (s =? "")) parts.

(** [parts.join(sep)]. *)
Definition join (sep : string) (parts : list string) : string :=
  String.concat sep parts.

(** [makePropertyPath], [makeSuburbPath] and [makeSuburbDataPath]; a state
    or postcode that is missing is the empty string.  The first two read
    the clock. *)
Definition makePropertyPath (d : date) (address state postcode : string) : string :=
  let ts := makeTimestamp d in
  let parts := filter_Boolean [makeSafeName address; state; postcode; ts] in
  folders.property ++ "/" ++ join "_" parts ++ ".pdf".

Definition makeSuburbPath (d : date) (suburb state postcode : string) : string :=
  let ts := makeTimestamp d in
  let parts := filter_Boolean [makeSafeName suburb; state; postcode; ts] in
  folders.suburb ++ "/" ++ join "_" parts ++ "_Suburb_Report.pdf".

Definition makeSuburbDataPath (suburb state postcode : string) : string :=
  let parts := filter_Boolean [makeSafeName suburb; state; postcode] in
  folders.suburb ++ "/" ++ join "_" parts ++ "_Suburb_Data.json".

(** The prefix under which the report route looks for an existing
    property report:
    [[makeSafeName(name), state, postcode].filter(Boolean).join("_")]. *)
Definition propertyPrefix (name state postcode : string) : string :=
  join "_" (filter_Boolean [makeSafeName name; state; postcode]).

Definition lower (c : ascii) : ascii :=
  let n := N_of_ascii c in
  if ((65 <=? n) && (n <=? 90))%N then ascii_of_N (n + 32) else c.

Fixpoint toLowerCase (s : string) : string :=
  match s with
  | EmptyString => EmptyString
  | String c s' => String (lower c) (toLowerCase s')
  end.

(** The test of [dropboxListFolder(folderPath, prefix)] on the name of an
    entry: with a prefix, [name.toLowerCase().startsWith(lowerPrefix)]. *)
Definition listed (prefix name : string) : bool :=
  if prefix =? "" then true
  else String.prefix (toLowerCase prefix) (toLowerCase name).

(** ** Addresses *)

Record address : Type := {
  street : string;
  suburb : string;
  state : string;
  postcode : string;
}.

(** [s.split(",")] for a separator of one character. *)
Fixpoint split (sep : ascii) (s : string) : list string :=
  match s with
  | EmptyString => [EmptyString]
  | String c s' =>
      if (c =? sep)%char then EmptyString :: split sep s'
      else
        match split sep s' with
        | p :: ps => String c p :: ps
        | [] => [String c EmptyString]
        end
  end.

Definition is_upper (c : ascii) : bool :=
  let n := N_of_ascii c in ((65 <=? n) && (n <=? 90))%N.

(** The longest prefix of at most [n] characters of the class [p], and
    the rest. *)
Fixpoint take_while (n : nat) (p : ascii -> bool) (s : string) : string * string :=
  match n, s with
  | S n', String c s' =>
      if p c then let '(a, r) := take_while n' p s' in (String c a, r)
      else (EmptyString, s)
  | _, _ => (EmptyString, s)
  end.

Fixpoint all_of (p : ascii -> bool) (s : string) : bool :=
  match s with
  | EmptyString => true
  | String c s' => p c && all_of p s'
  end.

(** [s.match(/^([A-Z]{2,3})\s+(\d{4})$/)]: the two groups. *)
Definition match_state_postcode (s : string) : option (string * string) :=
  let '(st, r) := take_while 3 is_upper s in
  let pc := trimStart r in
  if (2 <=? String.length st)%nat
     && (String.length pc <? String.length r)%nat
     && (String.length pc =? 4)%nat && all_of is_digit pc
  then Some (st, pc) else None.

(** [parseAddress(address)]. *)
Definition parseAddress (a : string) : address :=
  let parts := map trim (split "," a) in
  if (List.length parts <? 2)%nat
  then {| street := a; suburb := ""; state := ""; postcode := "" |}
  else
    let street := nth 0 parts "" in
    let suburb := if (3 <=? List.length parts)%nat then nth 1 parts "" else "" in
    let lastPart := nth (List.length parts - 1) parts "" in
    let statePostMatch := match_state_postcode lastPart in
    {| street := street;
       suburb := suburb;
       state := match statePostMatch with Some (st, _) => st | None => "" end;
       postcode := match statePostMatch with Some (_, pc) => pc | None => "" end |}.

(** ** Scraped figures *)

(** [includes("(")]. *)
Fixpoint includes (c : ascii) (s : string) : bool :=
  match s with
  | EmptyString => false
  | String c' s' => (c' =? c)%char || includes c s'
  end.

(** [fmtInsight(value, recommendation, source)] on strings; a missing
    argument is the empty string. *)
Definition fmtInsight (value recommendation source : string) : string :=
  if value =? "" then ""
  else if includes "(" value then value
  else
    let labels :=
      ((if recommendation =? "" then [] else [recommendation])
       ++ (if source =? "" then [] else [source]))%list in
    match labels with
    | [] => value
    | _ => value ++ " (" ++ join " | " labels ++ ")"
    end.

(** [String(v)]. *)
Definition String_of (h : host) (v : value) : string :=
  match v with
  | VNum n => toString h n
  | _ => to_String v
  end.

(** The longest prefix of characters of the class [p], and the rest. *)
Fixpoint span (p : ascii -> bool) (s : string) : string * string :=
  match s with
  | String c s' =>
      if p c then let '(a, r) := span p s' in (String c a, r)
      else (EmptyString, s)
  | EmptyString => (EmptyString, s)
  end.

(** [s.match(re)] without the flag [g]: the match at the first position
    of [s] where [re] matches, [at_start] being the match at the start. *)
Fixpoint search {A : Type} (at_start : string -> option A) (s : string) : option A :=
  match at_start s with
  | Some a => Some a
  | None =>
      match s with
      | String _ s' => search at_start s'
      | EmptyString => None
      end
  end.

Definition skip_dollar (s : string) : string :=
  match s with
  | String "$" s' => s'
  | _ => s
  end.

Definition is_amount_char (c : ascii) : bool :=
  is_digit c || (c =? ",")%char || (c =? ".")%char.

Definition is_decimal_char (c : ascii) : bool :=
  is_digit c || (c =? ".")%char.

(** [/\$?\s*([\d,.]+)\s*(...)/i] at the start of [s], for a class
    [suffix] of one letter: the group of the amount and the letter.  Every
    quantifier has one way to match: the character that ends a run cannot
    start the next item. *)
Definition amount_then (suffix : ascii -> bool) (s : string) : option (string * ascii) :=
  let '(g, r) := span is_amount_char (trimStart (skip_dollar s)) in
  match g, trimStart r with
  | String _ _, String c _ => if suffix c then Some (g, c) else None
  | _, _ => None
  end.

(** [/\$?\s*([\d.]+)/] at the start of [s]. *)
Definition decimal_run (s : string) : option string :=
  let '(g, _) := span is_decimal_char (trimStart (skip_dollar s)) in
  match g with
  | String _ _ => Some g
  | EmptyString => None
  end.

Definition remove_commas (s : string) : string :=
  retain (fun c => negb (c =? ",")%char) s.

(** [parseRental(val)]. *)
Definition parseRental (h : host) (val : value) : number :=
  if negb (truthy val) then 0
  else
    let s := trim (String_of h val) in
    match search (amount_then (fun c => (lower c =? "k")%char)) s with
    | Some (g, _) => parseFloat (remove_commas g) * 1000
    | None =>
        match search decimal_run (remove_commas s) with
        | Some g =>
            let n := parseFloat g in
            if ((n >? 0) && (n <? 50))%js then n * 1000 else n
        | None => 0
        end
    end.

(** [parsePrice(val)]. *)
Definition parsePrice (val : value) : number :=
  if negb (truthy val) then 0
  else
    match val with
    | VNum n => n
    | _ =>
        let str := trim (to_String val) in
        let plain := num_or_else (parseFloat (retain is_decimal_char str)) 0 in
        match search (amount_then (fun c => (lower c =? "m")%char || (lower c =? "k")%char)) str with
        | Some (g, c) =>
            let n := parseFloat (remove_commas g) in
            let suffix := lower c in
            if (suffix =? "m")%char then n * 1000000
            else if (suffix =? "k")%char then n * 1000
            else plain
        | None => plain
        end
    end.

(** [a || b || c]. *)
Definition or_else3 (a b c : value) : value := or_else (or_else a b) c.

(** The rents and the price that [mapScraperToReport] reads from the
    request [input] and the scraped property data [prop]. *)
Definition rentalLow (h : host) (input prop : gmap string value) : number :=
  parseRental h
    (or_else3 (get input "lowerRentWeekly") (get prop "rental_low")
       (get input "currentRent")).

Definition rentalHigh (h : host) (input prop : gmap string value) : number :=
  num_or_else
    (parseRental h
       (or_else3 (get input "higherRentWeekly") (get prop "rental_high")
          (get input "currentRent")))
    (rentalLow h input prop).

Definition purchasePrice (input prop : gmap string value) : number :=
  num_or_else
    (num_or_else
       (num_or_else
          (parsePrice (or_else (get input "purchasePrice") (get input "price")))
          (parsePrice (get prop "valuation_estimate")))
       (parsePrice (get prop "sold_price")))
    0.

(** [input.k != null ? input.k : undefined]. *)
Definition given (input : gmap string value) (k : string) : value :=
  if not_null (get input k) then get input k else VUndefined.

(** The cashflow inputs of [mapScraperToReport]: those of the request
    ([cashflowInputs], when [input.cashflowInputs] is an object), or the
    ones built from the price and the rents, then the overrides of the
    request ([cashflowOverrides]).  None stands for [null]. *)
Definition cashflowInputs (h : host) (input prop : gmap string value)
    (requested overrides : option (gmap string value))
    : option (gmap string value) :=
  let built :=
    match requested with
    | Some c => Some c
    | None =>
        if ((purchasePrice input prop >? 0) && (rentalLow h input prop >? 0))%js
        then Some (list_to_map
                     [("purchasePrice", VNum (purchasePrice input prop));
                      ("lowerRentWeekly", VNum (rentalLow h input prop));
                      ("higherRentWeekly", VNum (rentalHigh h input prop));
                      ("stampDuty", given input "stampDuty");
                      ("mortgageFee", given input "mortgageFee")])
        else None
    end in
  match built, overrides with
  | Some c, Some o => Some (spread c o)
  | _, _ => built
  end.

(** * Part 2: the vocabulary of the properties *)

Local Close Scope string_scope.

(** The normalised state code that [calcStampDuty] and [calculateCashflow]
    branch on. *)
Definition code_of (state : string) : string := trim (toUpperCase (or_NSW state)).

(** The fee pair that [calcMortgageFee] uses for a state code. *)
Definition fee_pair (s : string) : number * number :=
  default (175, 175) (fees !! s).




Local Open Scope string_scope.

(** The property names of the returned record, in source order. *)
Definition record_fields : list string :=
  [ "date"; "purchasePrice"; "depositPercent"; "lvrPercent"; "loanAmount";
    "depositAmount"; "depositPercentLabel"; "stampDuty"; "lmi"; "mortgageFee";
    "legals"; "pestReport"; "strataReport"; "buyersAgencyFee"; "renovation";
    "totalFundsRequired"; "yieldLowRent"; "yieldHighRent";
    "lowerRentWeekly"; "lowerRentMonthly"; "lowerRentAnnually";
    "higherRentWeekly"; "higherRentMonthly"; "higherRentAnnually";
    "councilWeekly"; "councilMonthly"; "councilAnnually";
    "strataWeekly"; "strataMonthly"; "strataAnnually";
    "buildingInsWeekly"; "buildingInsMonthly"; "buildingInsAnnually";
    "landlordInsWeekly"; "landlordInsMonthly"; "landlordInsAnnually";
    "otherWeekly"; "otherMonthly"; "otherAnnually";
    "mgmtFeePercent"; "mgmtFeeWeekly"; "mgmtFeeMonthly"; "mgmtFeeAnnually";
    "interestOnlyRate"; "interestOnlyWeekly"; "interestOnlyMonthly";
    "interestOnlyAnnually";
    "principalInterestRate"; "principalInterestWeekly";
    "principalInterestMonthly"; "principalInterestAnnually";
    "totalExpenseLabel"; "totalExpenseWeekly"; "totalExpenseMonthly";
    "totalExpenseAnnually";
    "cfBeforeTaxLowerWeekly"; "cfBeforeTaxLowerMonthly"; "cfBeforeTaxLowerAnnually";
    "cfBeforeTaxHigherWeekly"; "cfBeforeTaxHigherMonthly"; "cfBeforeTaxHigherAnnually";
    "taxBracket"; "disclaimerRate";
    "cfAfterTaxLowerWeekly"; "cfAfterTaxLowerMonthly"; "cfAfterTaxLowerAnnually";
    "cfAfterTaxHigherWeekly"; "cfAfterTaxHigherMonthly"; "cfAfterTaxHigherAnnually" ].

(** The properties of the record that show an amount of money. *)
Definition money_fields : list string :=
  [ "purchasePrice"; "loanAmount"; "depositAmount"; "stampDuty"; "lmi";
    "mortgageFee"; "legals"; "pestReport"; "strataReport"; "buyersAgencyFee";
    "renovation"; "totalFundsRequired";
    "lowerRentWeekly"; "lowerRentMonthly"; "lowerRentAnnually";
    "higherRentWeekly"; "higherRentMonthly"; "higherRentAnnually";
    "councilWeekly"; "councilMonthly"; "councilAnnually";
    "strataWeekly"; "strataMonthly"; "strataAnnually";
    "buildingInsWeekly"; "buildingInsMonthly"; "buildingInsAnnually";
    "landlordInsWeekly"; "landlordInsMonthly"; "landlordInsAnnually";
    "otherWeekly"; "otherMonthly"; "otherAnnually";
    "mgmtFeeWeekly"; "mgmtFeeMonthly"; "mgmtFeeAnnually";
    "interestOnlyWeekly"; "interestOnlyMonthly"; "interestOnlyAnnually";
    "principalInterestWeekly"; "principalInterestMonthly";
    "principalInterestAnnually";
    "totalExpenseWeekly"; "totalExpenseMonthly"; "totalExpenseAnnually";
    "cfBeforeTaxLowerWeekly"; "cfBeforeTaxLowerMonthly"; "cfBeforeTaxLowerAnnually";
    "cfBeforeTaxHigherWeekly"; "cfBeforeTaxHigherMonthly"; "cfBeforeTaxHigherAnnually";
    "cfAfterTaxLowerWeekly"; "cfAfterTaxLowerMonthly"; "cfAfterTaxLowerAnnually";
    "cfAfterTaxHigherWeekly"; "cfAfterTaxHigherMonthly"; "cfAfterTaxHigherAnnually" ].

(** The optional lines, which the record leaves blank when their amount is
    falsy. *)
Definition blank_when_zero : list string :=
  [ "lmi"; "strataReport"; "renovation";
    "strataWeekly"; "strataMonthly"; "strataAnnually";
    "buildingInsWeekly"; "buildingInsMonthly"; "buildingInsAnnually";
    "otherWeekly"; "otherMonthly"; "otherAnnually" ].

Definition is_blank_line (k : string) : bool :=
  existsb (String.eqb k) blank_when_zero.

(** ** The display format *)

(** Groups of a comma and three digits, then a point and two digits. *)
Fixpoint groups_then_cents (s : string) : bool :=
  match s with
  | String c (String d1 (String d2 rest)) =>
      if (c =? ".")%char then is_digit d1 && is_digit d2 && (rest =? "")
      else if (c =? ",")%char then
        match rest with
        | String d3 rest' =>
            is_digit d1 && is_digit d2 && is_digit d3 && groups_then_cents rest'
        | EmptyString => false
        end
      else false
  | _ => false
  end.

(** One to three digits, then [groups_then_cents]. *)
Definition leading_group (s : string) : bool :=
  match s with
  | String a r1 =>
      is_digit a
      && (groups_then_cents r1
          || match r1 with
             | String b r2 =>
                 is_digit b
                 && (groups_then_cents r2
                     || match r2 with
                        | String c r3 => is_digit c && groups_then_cents r3
                        | EmptyString => false
                        end)
             | EmptyString => false
             end)
  | EmptyString => false
  end.

(** Follows the spec's words: a two-decimal, thousands-separated number, as
    in ["1,234.56"]: an optional minus sign, one to three digits, groups of
    a comma and three digits, a point and two digits. *)
Definition money_format (s : string) : bool :=
  match s with
  | String c r => if (c =? "-")%char then leading_group r else leading_group s
  | EmptyString => false
  end.

Fixpoint all_digits (s : string) : bool :=
  match s with
  | EmptyString => true
  | String c s' => is_digit c && all_digits s'
  end.

(** The two fraction digits, checked for each of the hundred remainders. *)
Definition two_digits (k : Z) : bool :=
  match zeros (2 - String.length (digits k)) ++ digits k with
  | String a (String b EmptyString) => is_digit a && is_digit b
  | _ => false
  end.

(** ** Binary64 arithmetic

    The Numbers of the engine are binary64 floating-point numbers.  The
    samples that the properties below rest on are also evaluated with the
    rounding of IEEE 754, on the expressions of the source that involve
    only [+], [-], [*] and [/]. *)

Module B64.

Definition prec : Z := 53.
Definition emax : Z := 1024.

Definition of_Z (z : Z) : spec_float := binary_normalize prec emax z 0 false.

(** The decimal literal [n * 10^-k], rounded to the nearest binary64. *)
Definition decimal (n : Z) (k : nat) : spec_float :=
  SFdiv prec emax (of_Z n) (of_Z (10 ^ Z.of_nat k)).

Definition add : spec_float -> spec_float -> spec_float := SFadd prec emax.
Definition mul : spec_float -> spec_float -> spec_float := SFmul prec emax.
Definition div : spec_float -> spec_float -> spec_float := SFdiv prec emax.

(** The zero-rate branch of [pmtAnnual]: [principal / n * 12] with
    [n = years * 12]. *)
Definition pmtAnnual_zero_rate (years principal : spec_float) : spec_float :=
  let n := mul years (of_Z 12) in
  mul (div principal n) (of_Z 12).

(** The NT branch of [calcStampDuty]. *)
Definition calcStampDuty_NT (p : spec_float) : spec_float :=
  let v := div p (of_Z 1000) in
  if SFleb p (of_Z 525000)
  then mul (add (mul (mul (decimal 6571441 8) v) v) (mul (of_Z 15) v)) (of_Z 1)
  else mul p (decimal 495 4).

End B64.

(** ** Sample inputs *)

Definition sample_host : host :=
  {| today := "02/11/2026"; shortest := fun _ => "" |}.

(** The end-to-end scenario of the specification. *)
Definition scenario_input : gmap string value :=
  list_to_map
    [("purchasePrice", VNum 600000); ("lowerRentWeekly", VNum 500);
     ("depositPercent", VNum 0.20)].


(** Percentages given as whole numbers, as fractions and as strings. *)
Definition percent_input : gmap string value :=
  list_to_map
    [("depositPercent", VNum 20); ("mgmtFeePercent", VStr "7%");
     ("interestOnlyRate", VNum 0.0625); ("principalInterestRate", VNum 1);
     ("taxBracket", VStr "37")].

(** A record with a price of 0 and no renovation budget. *)
Definition rent_only_input : gmap string value :=
  list_to_map
    [("purchasePrice", VNum 0); ("lowerRentWeekly", VNum 500);
     ("higherRentWeekly", VStr "$550")].

(** Currency symbols, separators, an unparseable rent and a null field. *)
Definition untidy_input : gmap string value :=
  list_to_map
    [("purchasePrice", VStr "$600,000"); ("lowerRentWeekly", VStr "n/a");
     ("depositPercent", VStr "20%"); ("legals", VNull)].

(** ** The format of a time stamp *)

(** Two digits. *)
Definition two_digit_text (s : string) : bool :=
  match s with
  | String a (String b EmptyString) => is_digit a && is_digit b
  | _ => false
  end.

(** Four digits. *)
Definition four_digit_text (s : string) : bool :=
  match s with
  | String a (String b r) => is_digit a && is_digit b && two_digit_text r
  | _ => false
  end.

(** [YYYYMMDD_HHMM]: eight digits, an underscore, four digits. *)
Definition timestamp_format (s : string) : bool :=
  match s with
  | String y1 (String y2 (String y3 (String y4 (String m1 (String m2
      (String d1 (String d2 (String u r)))))))) =>
      four_digit_text (String y1 (String y2 (String y3 (String y4 "")))) 
      && four_digit_text (String m1 (String m2 (String d1 (String d2 ""))))
      && (u =? "_")%char && four_digit_text r
  | _ => false
  end.

(** [f] holds of the [k] whole numbers from [from] on. *)
Fixpoint all_from (f : N -> bool) (k : nat) (from : N) : bool :=
  match k with
  | O => true
  | S k' => f from && all_from f k' (N.succ from)
  end.

(** ** Decimal text *)


(** The two fraction digits of [r] hundredths are read back as [r]. *)
Definition fraction_reads_back (r : N) : bool :=
  match read_digits 0 0 (fraction 2 (Z.of_N r)) with
  | (m, k, rest) => (m =? Z.of_N r)%Z && (k =? 2)%nat && (rest =? "")
  end.

(** A rational rounded to a whole number of cents, ties away from zero:
    the amount that [fmt] displays. *)
Definition to_cents (q : Q) : Q :=
  if Qle_bool 0 q then scaled 2 q # 100 else - (scaled 2 q # 100).

(** The string [r] is empty or starts with a character outside the
    class [p]. *)
Definition stops (p : ascii -> bool) (r : string) : bool :=
  match r with
  | EmptyString => true
  | String c _ => negb (p c)
  end.





(** ** Groups of properties of the returned record *)

(** Each property of the higher-rent column with its twin of the
    lower-rent column. *)
Definition rent_tier_fields : list (string * string) :=
  [ ("higherRentWeekly", "lowerRentWeekly");
    ("higherRentMonthly", "lowerRentMonthly");
    ("higherRentAnnually", "lowerRentAnnually");
    ("yieldHighRent", "yieldLowRent");
    ("cfBeforeTaxHigherWeekly", "cfBeforeTaxLowerWeekly");
    ("cfBeforeTaxHigherMonthly", "cfBeforeTaxLowerMonthly");
    ("cfBeforeTaxHigherAnnually", "cfBeforeTaxLowerAnnually");
    ("cfAfterTaxHigherWeekly", "cfAfterTaxLowerWeekly");
    ("cfAfterTaxHigherMonthly", "cfAfterTaxLowerMonthly");
    ("cfAfterTaxHigherAnnually", "cfAfterTaxLowerAnnually") ].

(** Each cashflow after tax with the cashflow before tax. *)
Definition after_tax_fields : list (string * string) :=
  [ ("cfAfterTaxLowerWeekly", "cfBeforeTaxLowerWeekly");
    ("cfAfterTaxLowerMonthly", "cfBeforeTaxLowerMonthly");
    ("cfAfterTaxLowerAnnually", "cfBeforeTaxLowerAnnually");
    ("cfAfterTaxHigherWeekly", "cfBeforeTaxHigherWeekly");
    ("cfAfterTaxHigherMonthly", "cfBeforeTaxHigherMonthly");
    ("cfAfterTaxHigherAnnually", "cfBeforeTaxHigherAnnually") ].

(** The twelve cashflow lines. *)
Definition cashflow_fields : list string :=
  [ "cfBeforeTaxLowerWeekly"; "cfBeforeTaxLowerMonthly"; "cfBeforeTaxLowerAnnually";
    "cfBeforeTaxHigherWeekly"; "cfBeforeTaxHigherMonthly"; "cfBeforeTaxHigherAnnually";
    "cfAfterTaxLowerWeekly"; "cfAfterTaxLowerMonthly"; "cfAfterTaxLowerAnnually";
    "cfAfterTaxHigherWeekly"; "cfAfterTaxHigherMonthly"; "cfAfterTaxHigherAnnually" ].


(** A request with a price and a rent as text, and no scraped data. *)
Definition scraped_input : gmap string value :=
  list_to_map
    [("purchasePrice", VStr "$600,000"); ("lowerRentWeekly", VStr "$500/W")].

(** The cashflow inputs built from it. *)
Definition built_input : gmap string value :=
  list_to_map
    [("purchasePrice", VNum 600000); ("lowerRentWeekly", VNum 500);
     ("higherRentWeekly", VNum 500); ("stampDuty", VUndefined);
     ("mortgageFee", VUndefined)].

(** * Part 3: properties *)

Local Close Scope string_scope.

(** ** Samples of the embedding *)

Example num_currency : num (VStr "$1,234.50") ≈ 1234.5.
Proof. vm_compute. reflexivity. Qed.

Example num_percent : num (VStr "5.5%") ≈ 5.5.
Proof. vm_compute. reflexivity. Qed.

Example num_exponent : num (VStr " -12.5e-1x") ≈ Fin (-1.25).
Proof. vm_compute. reflexivity. Qed.

Example num_garbage : num (VStr "n/a") = 0.
Proof. reflexivity. Qed.

Example num_absent : num (get ∅ "purchasePrice") = 0.
Proof. reflexivity. Qed.

Example num_infinity : num (VStr "-Infinity") = NInf.
Proof. reflexivity. Qed.

Example trim_upper : trim (toUpperCase "  nsw ") = "NSW"%string.
Proof. reflexivity. Qed.

Example duty_nsw_600k : calcStampDuty 600000 "NSW" ≈ 21532.5.
Proof. vm_compute. reflexivity. Qed.

Example duty_lower_case : calcStampDuty 600000 " vic " ≈ 31070.
Proof. vm_compute. reflexivity. Qed.

Example fee_nsw : calcMortgageFee "NSW" 600000 ≈ 600.
Proof. vm_compute. reflexivity. Qed.

Example fee_wa : calcMortgageFee "wa" 0 ≈ 700.
Proof. vm_compute. reflexivity. Qed.

Example pmt_zero_rate : pmtAnnual 0 30 300000 ≈ 10000.
Proof. vm_compute. reflexivity. Qed.

Example fee_unknown : calcMortgageFee "Wellington" 750000 ≈ 600.
Proof. vm_compute. reflexivity. Qed.

(** Decides a closed statement by evaluating it. *)
Ltac computed :=
  vm_compute;
  first [ reflexivity | discriminate
        | let E := fresh "E" in intros E; discriminate E ].

(** ** Comparisons of finite numbers *)

Lemma leb_Fin (x y : Q) : (Fin x <=? Fin y) = true <-> (x <= y)%Q.
Proof. apply Qle_bool_iff. Qed.

Lemma leb_Fin_false (x y : Q) : (Fin x <=? Fin y) = false <-> (y < x)%Q.
Proof.
  cbn. split; intros H.
  - apply Qnot_le_lt. intros Hle. apply Qle_bool_iff in Hle. congruence.
  - destruct (Qle_bool x y) eqn:E; [| reflexivity].
    apply Qle_bool_iff in E. lra.
Qed.

(** Splits on every bracket test in the goal and turns the tests into
    rational inequalities. *)
Ltac brackets :=
  repeat match goal with
    | |- context [if Qle_bool ?a ?b then _ else _] =>
        let E := fresh "E" in
        destruct (Qle_bool a b) eqn:E;
        [ apply Qle_bool_iff in E | apply (leb_Fin_false a b) in E ]
    end.

(** Division by a constant of the tables, as a product. *)
Ltac const_div :=
  unfold Qdiv in *;
  change (/ 100)%Q with (1 # 100)%Q in *;
  change (/ 1000)%Q with (1 # 1000)%Q in *.

Ltac fin_le := cbn; try apply Qle_bool_iff; const_div; first [lra | nra].

(** ** Stamp duty *)

Ltac by_state :=
  unfold calcStampDuty, code_of in *;
  repeat match goal with
    | |- context [String.eqb ?a ?b] => destruct (String.eqb_spec a b)
    end;
  try congruence.

Section StampDuty.

Variables (state : string) (p1 p2 : Q).
Hypothesis p1_nonneg : (0 <= p1)%Q.
Hypothesis p1_le_p2 : (p1 <= p2)%Q.

Lemma duty_nonneg : (0 <=? calcStampDuty (Fin p1) state) = true.
Proof using p1_nonneg.
  by_state; cbn; brackets; fin_le.
Qed.

(** The six states with a marginal schedule that the code keeps
    continuous or stepping up, and the flat fallback. *)
Lemma duty_monotone_schedules :
  code_of state <> "SA"%string -> code_of state <> "ACT"%string ->
  code_of state <> "NT"%string ->
  (calcStampDuty (Fin p1) state <=? calcStampDuty (Fin p2) state) = true.
Proof using p1_nonneg p1_le_p2.
  intros HSA HACT HNT. by_state; cbn; brackets; fin_le.
Qed.

Lemma duty_monotone_SA :
  code_of state = "SA"%string ->
  (p2 <= 300000)%Q \/ (300000 < p1)%Q ->
  (calcStampDuty (Fin p1) state <=? calcStampDuty (Fin p2) state) = true.
Proof using p1_nonneg p1_le_p2.
  intros HSA [Hlow | Hhigh]; by_state; cbn; brackets; fin_le.
Qed.

Lemma duty_monotone_ACT :
  code_of state = "ACT"%string ->
  (p2 <= 260000)%Q \/ (260000 < p1)%Q ->
  (calcStampDuty (Fin p1) state <=? calcStampDuty (Fin p2) state) = true.
Proof using p1_nonneg p1_le_p2.
  intros HACT [Hlow | Hhigh]; by_state; cbn; brackets; fin_le.
Qed.

Lemma duty_monotone_NT :
  code_of state = "NT"%string ->
  (p2 <= 525000)%Q \/ (525000 < p1)%Q ->
  (calcStampDuty (Fin p1) state <=? calcStampDuty (Fin p2) state) = true.
Proof using p1_nonneg p1_le_p2.
  intros HNT [Hlow | Hhigh]; by_state; cbn; brackets; fin_le.
Qed.

End StampDuty.

(** The ACT schedule steps down at 260000: the duty on 260000 is 4056000,
    and on the dearer 300000 it is 6819. *)
Lemma calcStampDuty_ACT_drop :
  calcStampDuty 260000 "ACT" ≈ 4056000 /\
  calcStampDuty 300000 "ACT" ≈ 6819 /\
  (calcStampDuty 260000 "ACT" <=? calcStampDuty 300000 "ACT") = false.
Proof. repeat split; computed. Qed.

(** The SA schedule steps down at 300000, from 11580 to the base 11330 of
    the next bracket. *)
Lemma calcStampDuty_SA_drop :
  calcStampDuty 300000 "SA" ≈ 11580 /\
  calcStampDuty 300001 "SA" ≈ 11330.05 /\
  (calcStampDuty 300000 "SA" <=? calcStampDuty 300001 "SA") = false.
Proof. repeat split; computed. Qed.

(** C1 (as first stated, refuted): stamp duty is not monotone in the price
    for every jurisdiction.  The NT formula gives 25987.53425625 at 525000,
    the top of its quadratic bracket, and the flat 4.95% above it gives
    25987.52475 at 525000.50. *)
Lemma calcStampDuty_NT_drop :
  (0 <= 525000)%Q /\ (525000 <= 525000.5)%Q /\
  calcStampDuty 525000 "NT" ≈ 25987.53425625 /\
  calcStampDuty 525000.5 "NT" ≈ 25987.52475 /\
  (calcStampDuty 525000 "NT" <=? calcStampDuty 525000.5 "NT") = false.
Proof. repeat split; computed. Qed.

(** The same two duties in binary64 arithmetic: the dearer price pays
    less. *)
Example calcStampDuty_NT_drop_binary64 :
  SFltb (B64.calcStampDuty_NT (B64.decimal 5250005 1))
        (B64.calcStampDuty_NT (B64.of_Z 525000)) = true.
Proof. vm_compute. reflexivity. Qed.

(** C1 (amended): for every jurisdiction code and non-negative prices
    [p1 <= p2] the stamp duty on [p1] is non-negative, and it is at most the
    duty on [p2], provided that for SA, ACT and NT both prices lie on the
    same side of the boundary 300000, 260000 and 525000 of that schedule. *)
Theorem calcStampDuty_nonneg_monotone (state : string) (p1 p2 : Q) :
  (0 <= p1)%Q -> (p1 <= p2)%Q ->
  (0 <=? calcStampDuty (Fin p1) state) = true /\
  (code_of state <> "SA"%string -> code_of state <> "ACT"%string ->
   code_of state <> "NT"%string ->
   (calcStampDuty (Fin p1) state <=? calcStampDuty (Fin p2) state) = true) /\
  (code_of state = "SA"%string -> (p2 <= 300000)%Q \/ (300000 < p1)%Q ->
   (calcStampDuty (Fin p1) state <=? calcStampDuty (Fin p2) state) = true) /\
  (code_of state = "ACT"%string -> (p2 <= 260000)%Q \/ (260000 < p1)%Q ->
   (calcStampDuty (Fin p1) state <=? calcStampDuty (Fin p2) state) = true) /\
  (code_of state = "NT"%string -> (p2 <= 525000)%Q \/ (525000 < p1)%Q ->
   (calcStampDuty (Fin p1) state <=? calcStampDuty (Fin p2) state) = true).
Proof.
  intros H0 H12. split; [| split; [| split; [| split]]].
  - now apply duty_nonneg.
  - now apply duty_monotone_schedules.
  - now apply duty_monotone_SA.
  - now apply duty_monotone_ACT.
  - now apply duty_monotone_NT.
Qed.

Lemma calcStampDuty_nonneg_monotone_witness :
  (0 <=? calcStampDuty 500000 "nsw") = true /\
  (calcStampDuty 500000 "nsw" <=? calcStampDuty 600000 "nsw") = true /\
  (calcStampDuty 300001 "SA" <=? calcStampDuty 400000 "SA") = true /\
  (calcStampDuty 100000 "ACT" <=? calcStampDuty 200000 "ACT") = true /\
  (calcStampDuty 600000 "NT" <=? calcStampDuty 700000 "NT") = true.
Proof.
  destruct (calcStampDuty_nonneg_monotone "nsw" 500000 600000)
    as (Hpos & Hmono & _); [lra | lra |].
  destruct (calcStampDuty_nonneg_monotone "SA" 300001 400000)
    as (_ & _ & HSA & _); [lra | lra |].
  destruct (calcStampDuty_nonneg_monotone "ACT" 100000 200000)
    as (_ & _ & _ & HACT & _); [lra | lra |].
  destruct (calcStampDuty_nonneg_monotone "NT" 600000 700000)
    as (_ & _ & _ & _ & HNT); [lra | lra |].
  split; [exact Hpos |].
  split; [apply Hmono; computed |].
  split; [apply HSA; [reflexivity | right; lra] |].
  split; [apply HACT; [reflexivity | left; lra] |].
  apply HNT; [reflexivity | right; lra].
Defined.

(** ** Lender's mortgage insurance *)

(** C2: the premium is 0 for a deposit ratio of 0.20 or more; below that it
    is the rate of the first band, from the top, whose inclusive lower
    bound the ratio reaches (0.15: 1.0%, 0.12: 1.7%, 0.10: 2.5%, else 3.5%)
    times the loan principal; a ratio of exactly 0.15 gets 1.0%. *)
Theorem calcLMI_bands (d : Q) (loan : number) :
  ((0.20 <= d)%Q -> calcLMI (Fin d) loan = 0) /\
  ((0.15 <= d)%Q -> (d < 0.20)%Q -> calcLMI (Fin d) loan = 0.01 * loan) /\
  ((0.12 <= d)%Q -> (d < 0.15)%Q -> calcLMI (Fin d) loan = 0.017 * loan) /\
  ((0.10 <= d)%Q -> (d < 0.12)%Q -> calcLMI (Fin d) loan = 0.025 * loan) /\
  ((d < 0.10)%Q -> calcLMI (Fin d) loan = 0.035 * loan) /\
  calcLMI 0.15 loan = 0.01 * loan.
Proof.
  unfold calcLMI, Num.geb.
  repeat split; intros; cbn [Num.leb]; brackets; try reflexivity; try lra;
    vm_compute in E; discriminate E.
Qed.

Lemma calcLMI_bands_witness :
  calcLMI 0.25 480000 = 0 /\
  calcLMI 0.18 492000 = 0.01 * 492000 /\
  calcLMI 0.12 528000 = 0.017 * 528000 /\
  calcLMI 0.10 540000 = 0.025 * 540000 /\
  calcLMI 0.05 570000 = 0.035 * 570000.
Proof.
  split; [apply (calcLMI_bands 0.25 480000); lra |].
  split; [apply (calcLMI_bands 0.18 492000); lra |].
  split; [apply (calcLMI_bands 0.12 528000); lra |].
  split; [apply (calcLMI_bands 0.10 540000); lra |].
  apply (calcLMI_bands 0.05 570000); lra.
Defined.

(** ** Mortgage registration fee *)

Lemma fee_pair_cases (s : string) :
  In (fee_pair s)
    [(175.70, 175.70); (128.50, 128.50); (238.14, 238.14); (203.00, 203.00);
     (187.00, 187.00); (217.00, 152.19); (166.00, 166.00); (152.00, 165.00);
     (175, 175)].
Proof.
  unfold fee_pair, fees. cbn [list_to_map foldr fst snd uncurry].
  repeat (rewrite lookup_insert; case_decide; [cbn; tauto |]).
  rewrite lookup_empty. cbn. tauto.
Qed.

(** C4: for every jurisdiction code, recognised or not, and every price,
    the fee is twice the transfer fee plus the mortgage registration fee of
    the code's pair (the pair 175, 175 for an unrecognised code), rounded up
    to the next multiple of 100: it is [100 * k] for a positive whole [k],
    the least such multiple that is not below the sum, and it is the same
    for every price. *)
Theorem calcMortgageFee_rounds_up (state : string) (price : number) :
  exists (tf mr : Q) (k : Z),
    default (175, 175) (fees !! toUpperCase (or_NSW state)) = (Fin tf, Fin mr) /\
    calcMortgageFee state price = Num.ceil ((Fin tf * 2 + Fin mr) / 100) * 100 /\
    calcMortgageFee state price = Fin (inject_Z (100 * k)) /\
    (0 < k)%Z /\
    (tf * 2 + mr <= inject_Z (100 * k))%Q /\
    (inject_Z (100 * k) < tf * 2 + mr + 100)%Q /\
    forall price' : number, calcMortgageFee state price' = calcMortgageFee state price.
Proof.
  unfold calcMortgageFee. fold (fee_pair (toUpperCase (or_NSW state))).
  pose proof (fee_pair_cases (toUpperCase (or_NSW state))) as Hin.
  cbn [In] in Hin.
  repeat (destruct Hin as [<- | Hin];
          [ do 2 eexists;
            first [ exists 4%Z; repeat split; computed
                  | exists 5%Z; repeat split; computed
                  | exists 6%Z; repeat split; computed
                  | exists 7%Z; repeat split; computed
                  | exists 8%Z; repeat split; computed ] |]).
  contradiction.
Qed.

(** ** The amortisation payment *)

Lemma is_zero_iff (q : Q) : Num.is_zero q = true <-> (q == 0)%Q.
Proof.
  unfold Num.is_zero, Qeq. cbn. rewrite Z.eqb_eq. lia.
Qed.











(** In binary64 arithmetic too, the zero-rate sample is exactly 10000. *)
Example pmtAnnual_zero_rate_binary64 :
  SFeqb (B64.pmtAnnual_zero_rate (B64.of_Z 30) (B64.of_Z 300000))
        (B64.of_Z 10000) = true.
Proof. vm_compute. reflexivity. Qed.

(** ** Samples of the display functions *)

Local Open Scope string_scope.

Example fmt_thousands : fmt 1234.56%js = "1,234.56".
Proof. reflexivity. Qed.

Example fmt_zero : fmt 0%js = "0.00".
Proof. reflexivity. Qed.

Example fmt_million : fmt 1000000%js = "1,000,000.00".
Proof. reflexivity. Qed.

Example fmt_half_cent : fmt (Fin (-0.125)) = "-0.13".
Proof. reflexivity. Qed.

Example fmt_hundreds : fmt 999.994%js = "999.99".
Proof. reflexivity. Qed.

Example fmt_carry : fmt 999.996%js = "1,000.00".
Proof. reflexivity. Qed.

Example toFixed_yield (h : host) : toFixed h 4.3333333%js 2 = "4.33".
Proof. reflexivity. Qed.

Example toFixed_whole (h : host) : toFixed h 6.25%js 0 = "6".
Proof. reflexivity. Qed.

Example toFixed_small (h : host) : toFixed h 0.055%js 3 = "0.055".
Proof. reflexivity. Qed.

Example toString_whole (h : host) : toString h (Num.round 79.5%js) = "80".
Proof. reflexivity. Qed.

(** ** The cashflow calculator *)

(** Reads a property of the returned record by evaluating the comparisons
    of property names. *)
Ltac read_field :=
  cbv [field cashflow_record String.eqb Ascii.eqb Bool.eqb].

(** The end-to-end scenario of the specification, in NSW with a standard
    loan and as an SMSF purchase. *)
Example scenario_standard :
  exists out,
    calculateCashflow sample_host scenario_input (VStr "NSW") (VBool false)
    = Return out /\
    field "depositAmount" out = VStr "120,000.00" /\
    field "loanAmount" out = VStr "480,000.00" /\
    field "lmi" out = VStr "" /\
    field "stampDuty" out = VStr "21,532.50" /\
    field "mortgageFee" out = VStr "600.00" /\
    field "mgmtFeeAnnually" out = VStr "1,430.00" /\
    field "totalFundsRequired" out = VStr "159,132.50" /\
    field "totalExpenseLabel" out = VStr "*Total Expense (with Interest Only loan)" /\
    field "totalExpenseAnnually" out = VStr "39,430.00" /\
    field "taxBracket" out = VStr "42%".
Proof.
  eexists. split; [reflexivity |].
  do 9 (split; [read_field; vm_compute; reflexivity |]).
  read_field. vm_compute. reflexivity.
Qed.

Example scenario_smsf :
  exists out,
    calculateCashflow sample_host scenario_input (VStr "NSW") (VBool true)
    = Return out /\
    field "loanAmount" out = VStr "480,000.00" /\
    field "interestOnlyRate" out = VStr "7.25%" /\
    field "principalInterestRate" out = VStr "7.00%" /\
    field "totalExpenseLabel" out
    = VStr "*Total Expense (with Principal & Interest loan)" /\
    field "taxBracket" out = VStr "0%".
Proof.
  eexists. split; [reflexivity |].
  do 4 (split; [read_field; vm_compute; reflexivity |]).
  read_field. vm_compute. reflexivity.
Qed.

Lemma num_or_absent (input : gmap string value) (k : string) (d : number) :
  not_null (get input k) = false -> num_or input k d = d.
Proof. unfold num_or. now intros ->. Qed.

Lemma pct_or_absent (input : gmap string value) (k : string) (d : number) :
  not_null (get input k) = false -> pct_or input k d = d.
Proof. unfold pct_or. now intros ->. Qed.

Lemma pct_or_present (input : gmap string value) (k : string) (d : number) :
  not_null (get input k) = true -> pct_or input k d = pct (get input k).
Proof. unfold pct_or. now intros ->. Qed.

(** C7: every percentage-typed input field (deposit percentage,
    management-fee percentage, interest-only rate, principal-and-interest
    rate, tax bracket), when supplied, is normalised by [pct]: a parsed
    value above 1 is divided by 100, a parsed value of at most 1 is used
    unchanged, and exactly 1 stays the fraction 1. *)
Theorem pct_uniform_rule (input : gmap string value) (st : string) (isSMSF : value) :
  let L := cashflow_locals input st isSMSF in
  (forall v : value, pct v = if num v >? 1 then num v / 100 else num v) /\
  (forall q : Q, (1 < q)%Q -> pct (VNum (Fin q)) = Fin (q / 100)) /\
  (forall q : Q, (q <= 1)%Q -> pct (VNum (Fin q)) = Fin q) /\
  pct (VNum 1) = 1 /\
  (not_null (get input "depositPercent") = true ->
   depositPct L = pct (get input "depositPercent")) /\
  (not_null (get input "mgmtFeePercent") = true ->
   mgmtPct L = pct (get input "mgmtFeePercent")) /\
  (not_null (get input "interestOnlyRate") = true ->
   ioRate L = pct (get input "interestOnlyRate")) /\
  (not_null (get input "principalInterestRate") = true ->
   piRate L = pct (get input "principalInterestRate")) /\
  (not_null (get input "taxBracket") = true ->
   taxBracket L = pct (get input "taxBracket")).
Proof.
  cbv zeta. repeat split.
  - intros q Hq. unfold pct, Num.gtb. cbn [num Num.ltb].
    replace (Qle_bool q 1) with false; [reflexivity |].
    symmetry. apply (leb_Fin_false q 1). exact Hq.
  - intros q Hq. unfold pct, Num.gtb. cbn [num Num.ltb].
    replace (Qle_bool q 1) with true; [reflexivity |].
    symmetry. apply Qle_bool_iff. exact Hq.
  - intros H. cbn [depositPct cashflow_locals]. now apply pct_or_present.
  - intros H. cbn [mgmtPct cashflow_locals]. now apply pct_or_present.
  - intros H. cbn [ioRate cashflow_locals].
    destruct (truthy isSMSF); now apply pct_or_present.
  - intros H. cbn [piRate cashflow_locals].
    destruct (truthy isSMSF); now apply pct_or_present.
  - intros H. cbn [taxBracket cashflow_locals].
    destruct (truthy isSMSF); now apply pct_or_present.
Qed.

Lemma pct_uniform_rule_witness :
  let L := cashflow_locals percent_input "NSW" (VBool false) in
  pct (VNum 20) = Fin (20 / 100) /\
  pct (VNum 0.0625) = 0.0625 /\
  depositPct L = pct (get percent_input "depositPercent") /\
  mgmtPct L = pct (get percent_input "mgmtFeePercent") /\
  ioRate L = pct (get percent_input "interestOnlyRate") /\
  piRate L = pct (get percent_input "principalInterestRate") /\
  taxBracket L = pct (get percent_input "taxBracket").
Proof.
  pose proof (pct_uniform_rule percent_input "NSW" (VBool false))
    as (_ & Hhi & Hlo & _ & Hd & Hm & Hio & Hpi & Htax).
  cbv zeta.
  split; [apply (Hhi 20%Q); lra |].
  split; [apply (Hlo 0.0625%Q); lra |].
  split; [apply Hd; vm_compute; reflexivity |].
  split; [apply Hm; vm_compute; reflexivity |].
  split; [apply Hio; vm_compute; reflexivity |].
  split; [apply Hpi; vm_compute; reflexivity |].
  apply Htax; vm_compute; reflexivity.
Defined.

Lemma state_code_string (s : string) :
  state_code (VStr s) = Return (code_of s).
Proof.
  unfold state_code, or_else, code_of, or_NSW. cbn [truthy].
  destruct (String.eqb s ""); reflexivity.
Qed.

Lemma state_code_falsy (state : value) :
  truthy state = false -> state_code state = Return "NSW".
Proof. unfold state_code, or_else. now intros ->. Qed.

(** A state that is neither falsy nor a string has no [toUpperCase]. *)
Lemma calculateCashflow_throws (h : host) (input : gmap string value) (isSMSF : value) :
  calculateCashflow h input (VNum 5) isSMSF = Throw TypeError.
Proof. reflexivity. Qed.

(** C10: for the codes ACT and NT, which have their own stamp-duty branch
    and their own entry in the registration-fee table, the calculator uses
    the fallback defaults 1500 for landlord insurance and 5.5% for the
    management fee when the input does not override them, because the two
    default tables have no entry for them. *)
Theorem territories_use_fallback_defaults (h : host)
    (input : gmap string value) (state isSMSF : value) (st : string) :
  state_code state = Return st ->
  st = "ACT" \/ st = "NT" ->
  not_null (get input "landlordInsAnnually") = false ->
  not_null (get input "mgmtFeePercent") = false ->
  let L := cashflow_locals input st isSMSF in
  LANDLORD_INS !! st = None /\ MGMT_FEE_PCT !! st = None /\
  landlordInsAnn L = 1500%js /\ mgmtPct L = 0.055%js /\
  (exists out,
      calculateCashflow h input state isSMSF = Return out /\
      field "landlordInsAnnually" out = VStr "1,500.00" /\
      field "mgmtFeePercent" out = VStr "5.50%") /\
  is_Some (fees !! st) /\
  (exists p : number, ~ (calcStampDuty p st ≈ p * 0.04)%js).
Proof.
  intros Hst Hcode Hins Hmgmt L.
  assert (HL : LANDLORD_INS !! st = None)
    by (destruct Hcode as [-> | ->]; vm_compute; reflexivity).
  assert (HM : MGMT_FEE_PCT !! st = None)
    by (destruct Hcode as [-> | ->]; vm_compute; reflexivity).
  assert (Hl : landlordInsAnn L = 1500%js).
  { subst L. cbn [landlordInsAnn cashflow_locals].
    rewrite (num_or_absent _ _ _ Hins), HL. reflexivity. }
  assert (Hm : mgmtPct L = 0.055%js).
  { subst L. cbn [mgmtPct cashflow_locals].
    rewrite (pct_or_absent _ _ _ Hmgmt), HM. reflexivity. }
  repeat split; try assumption.
  - eexists. unfold calculateCashflow. rewrite Hst. split; [reflexivity |].
    fold L. read_field. rewrite Hl, Hm. split; reflexivity.
  - destruct Hcode as [-> | ->]; vm_compute; eauto.
  - exists 300000%js. destruct Hcode as [-> | ->]; computed.
Qed.

Lemma territories_use_fallback_defaults_witness :
  exists out,
    calculateCashflow sample_host scenario_input (VStr " act") (VBool false)
    = Return out /\
    field "landlordInsAnnually" out = VStr "1,500.00" /\
    field "mgmtFeePercent" out = VStr "5.50%".
Proof.
  apply (territories_use_fallback_defaults
           sample_host scenario_input (VStr " act") (VBool false) "ACT");
    [reflexivity | left; reflexivity | vm_compute; reflexivity
    | vm_compute; reflexivity].
Defined.

Lemma equiv_zero (a : number) : (a ≈ 0)%js -> exists q : Q, a = Fin q /\ (q == 0)%Q.
Proof.
  destruct a as [q | | |]; cbn; intros H; try contradiction. now exists q.
Qed.

(** C9: when the purchase price and the renovation budget are both 0, the
    guard on [price + renovation] selects the constant 0 for both yields
    (no division is evaluated), and both yield fields of the record are
    ["0.00%"], for any rents, state and loan-type flag. *)
Theorem yield_guard (h : host) (input : gmap string value)
    (state isSMSF : value) (st : string) :
  state_code state = Return st ->
  (num (get input "purchasePrice") ≈ 0)%js ->
  (num (get input "renovation") ≈ 0)%js ->
  let L := cashflow_locals input st isSMSF in
  (yieldBase L >? 0)%js = false /\
  yieldLow L = 0%js /\ yieldHigh L = 0%js /\
  exists out,
    calculateCashflow h input state isSMSF = Return out /\
    field "yieldLowRent" out = VStr "0.00%" /\
    field "yieldHighRent" out = VStr "0.00%".
Proof.
  intros Hst Hprice Hreno L.
  apply equiv_zero in Hprice as (p & Hp & Hp0).
  apply equiv_zero in Hreno as (r & Hr & Hr0).
  assert (Hbase : (yieldBase L >? 0)%js = false).
  { subst L. cbn [yieldBase cashflow_locals]. rewrite Hp, Hr.
    unfold Num.gtb. cbn [Num.add Num.ltb].
    replace (Qle_bool (p + r) 0) with true; [reflexivity |].
    symmetry. apply Qle_bool_iff. lra. }
  assert (Hlow : yieldLow L = 0%js).
  { subst L. cbn [yieldBase yieldLow cashflow_locals] in *. now rewrite Hbase. }
  assert (Hhigh : yieldHigh L = 0%js).
  { subst L. cbn [yieldBase yieldHigh cashflow_locals] in *. now rewrite Hbase. }
  repeat split; try assumption.
  eexists. unfold calculateCashflow. rewrite Hst. split; [reflexivity |].
  fold L. read_field. rewrite Hlow, Hhigh. split; reflexivity.
Qed.

Lemma yield_guard_witness :
  exists out,
    calculateCashflow sample_host rent_only_input (VStr "QLD") (VBool true)
    = Return out /\
    field "yieldLowRent" out = VStr "0.00%" /\
    field "yieldHighRent" out = VStr "0.00%".
Proof.
  apply (yield_guard sample_host rent_only_input (VStr "QLD") (VBool true) "QLD");
    [reflexivity | vm_compute; reflexivity | vm_compute; reflexivity].
Defined.





(** The display of a number depends on its value only. *)
Lemma fmt_equiv (a b : number) : (a ≈ b)%js -> fmt a = fmt b.
Proof.
  destruct a as [x | | |], b as [y | | |]; cbn [Num.equiv];
    try contradiction; try reflexivity.
  intros H. unfold fmt, toLocaleString2, scaled, minus_sign.
  assert (Hfloor : Qfloor (Qabs x * inject_Z (10 ^ Z.of_nat 2) + (1 # 2))
                   = Qfloor (Qabs y * inject_Z (10 ^ Z.of_nat 2) + (1 # 2)))
    by (apply Qfloor_comp; rewrite H; reflexivity).
  assert (Hsign : Qle_bool 0 x = Qle_bool 0 y).
  { destruct (Qle_bool 0 x) eqn:Ex, (Qle_bool 0 y) eqn:Ey; try reflexivity.
    - apply Qle_bool_iff in Ex. rewrite H in Ex. apply Qle_bool_iff in Ex. congruence.
    - apply Qle_bool_iff in Ey. rewrite <- H in Ey. apply Qle_bool_iff in Ey.
      congruence. }
  now rewrite Hfloor, Hsign.
Qed.




(** ** The display format *)

Example money_format_ok : money_format "1,234.56" = true.
Proof. reflexivity. Qed.

Example money_format_negative : money_format "-12,345,678.90" = true.
Proof. reflexivity. Qed.

Example money_format_ungrouped : money_format "1234.56" = false.
Proof. reflexivity. Qed.

Example money_format_one_decimal : money_format "1,234.5" = false.
Proof. reflexivity. Qed.

Example money_format_blank : money_format "" = false.
Proof. reflexivity. Qed.

Lemma digit_char_is_digit (d : Z) :
  (0 <= d < 10)%Z -> is_digit (digit_char d) = true.
Proof.
  intros H.
  assert (d = 0 \/ d = 1 \/ d = 2 \/ d = 3 \/ d = 4 \/ d = 5 \/ d = 6
          \/ d = 7 \/ d = 8 \/ d = 9)%Z as Hd by lia.
  repeat (destruct Hd as [-> | Hd]; [reflexivity |]). subst d. reflexivity.
Qed.

Lemma digits_pos_all (fuel : nat) :
  forall (p : positive) (acc : string),
    all_digits acc = true -> all_digits (digits_pos p fuel acc) = true.
Proof.
  induction fuel as [| fuel IH]; intros p acc Hacc; cbn [digits_pos]; [exact Hacc |].
  assert (Hstep : all_digits (String (digit_char (Zpos p mod 10)) acc) = true).
  { cbn [all_digits]. rewrite Hacc, digit_char_is_digit; [reflexivity |].
    apply Z.mod_pos_bound. lia. }
  destruct (Zpos p / 10)%Z; [exact Hstep | now apply IH | exact Hstep].
Qed.

Lemma digits_pos_nonempty (fuel : nat) :
  forall (p : positive) (acc : string),
    acc <> "" -> digits_pos p fuel acc <> "".
Proof.
  induction fuel as [| fuel IH]; intros p acc Hacc; cbn [digits_pos]; [exact Hacc |].
  destruct (Zpos p / 10)%Z; try discriminate. apply IH. discriminate.
Qed.

Lemma digits_all (n : Z) : all_digits (digits n) = true.
Proof.
  destruct n; try reflexivity. unfold digits. now apply digits_pos_all.
Qed.

Lemma digits_nonempty (n : Z) : digits n <> "".
Proof.
  destruct n; try discriminate. unfold digits.
  destruct (Pos.size_nat p) as [| fuel] eqn:E.
  - destruct p; discriminate.
  - cbn [digits_pos]. destruct (Zpos p / 10)%Z; try discriminate.
    apply digits_pos_nonempty. discriminate.
Qed.

Lemma append_nil (s : string) : "" ++ s = s.
Proof. reflexivity. Qed.

Lemma append_cons (c : ascii) (a s : string) : String c a ++ s = String c (a ++ s).
Proof. reflexivity. Qed.

Lemma mod3 (n k j : nat) : n = (3 * k + j)%nat -> (j < 3)%nat -> (n mod 3 = j)%nat.
Proof.
  intros Hn Hj.
  pose proof (Nat.mod_upper_bound n 3). pose proof (Nat.div_mod_eq n 3). lia.
Qed.

(** A run of [3 * k] digits, grouped and put after a comma, continues a
    grouped number. *)
Lemma group_multiple (k : nat) :
  forall ds tail : string,
    String.length ds = (3 * S k)%nat ->
    all_digits ds = true ->
    groups_then_cents tail = true ->
    groups_then_cents ("," ++ group ds ++ tail) = true.
Proof.
  induction k as [| k IH]; intros ds tail Hlen Hds Htail.
  - destruct ds as [| a [| b [| c [| d r]]]]; try (cbn [String.length] in Hlen; lia).
    cbn [all_digits] in Hds.
    repeat (apply andb_true_iff in Hds as [? Hds]).
    cbn -[is_digit groups_then_cents]. rewrite !append_cons, !append_nil.
    cbn [groups_then_cents].
    change (("," =? ".")%char) with false. change (("," =? ",")%char) with true.
    cbv iota. now rewrite H, H0, H1, Htail.
  - destruct ds as [| a [| b [| c r]]]; try (cbn [String.length] in Hlen; lia).
    cbn [String.length] in Hlen.
    assert (Hr : String.length r = (3 * S k)%nat) by lia.
    cbn [all_digits] in Hds.
    repeat (apply andb_true_iff in Hds as [? Hds]).
    specialize (IH r tail Hr Hds Htail).
    cbn [group String.length].
    rewrite (mod3 (S (S (String.length r))) (S k) 2) by lia.
    rewrite (mod3 (S (String.length r)) (S k) 1) by lia.
    rewrite (mod3 (String.length r) (S k) 0) by lia.
    destruct r as [| d r]; [cbn [String.length] in Hr; lia |].
    rewrite !append_cons, ?append_nil in *.
    cbn [groups_then_cents].
    change (("," =? ".")%char) with false. change (("," =? ",")%char) with true.
    cbv iota. rewrite H, H0, H1. cbn [andb]. exact IH.
Qed.

(** The grouped digits of a whole number open a well-formed amount. *)
Lemma group_leading (ds tail : string) :
  ds <> "" ->
  all_digits ds = true ->
  groups_then_cents tail = true ->
  leading_group (group ds ++ tail) = true.
Proof.
  intros Hne Hds Htail.
  pose proof (Nat.mod_upper_bound (String.length ds) 3 ltac:(lia)) as Hj.
  pose proof (Nat.div_mod_eq (String.length ds) 3) as Hlen.
  set (k := (String.length ds / 3)%nat) in *.
  set (j := (String.length ds mod 3)%nat) in *.
  destruct ds as [| a r1]; [contradiction |].
  cbn [all_digits] in Hds. apply andb_true_iff in Hds as [Ha Hds].
  cbn [String.length] in Hlen.
  cbn [group]. rewrite append_cons. cbn [leading_group]. rewrite Ha. cbn [andb].
  assert (Hcases : (j = 1 \/ j = 2 \/ j = 0)%nat) by lia.
  destruct Hcases as [Hj1 | [Hj2 | Hj0]].
  - (* one leading digit *)
    rewrite (mod3 (String.length r1) k 0) by lia.
    apply orb_true_iff. left.
    destruct r1 as [| b r2].
    + rewrite append_nil. exact Htail.
    + destruct k as [| k]; [cbn [String.length] in Hlen; lia |].
      apply (group_multiple k); [lia | exact Hds | exact Htail].
  - (* two leading digits *)
    rewrite (mod3 (String.length r1) k 1) by lia.
    destruct r1 as [| b r2]; [cbn [String.length] in Hlen; lia |].
    cbn [all_digits] in Hds. apply andb_true_iff in Hds as [Hb Hds].
    cbn [String.length] in Hlen.
    cbn [group]. rewrite append_cons.
    apply orb_true_iff. right. rewrite Hb. cbn [andb].
    rewrite (mod3 (String.length r2) k 0) by lia.
    apply orb_true_iff. left.
    destruct r2 as [| c r3].
    + rewrite append_nil. exact Htail.
    + destruct k as [| k]; [cbn [String.length] in Hlen; lia |].
      apply (group_multiple k); [lia | exact Hds | exact Htail].
  - (* three leading digits *)
    rewrite (mod3 (String.length r1) (k - 1) 2) by lia.
    destruct r1 as [| b r2]; [cbn [String.length] in Hlen; lia |].
    cbn [all_digits] in Hds. apply andb_true_iff in Hds as [Hb Hds].
    cbn [String.length] in Hlen.
    cbn [group]. rewrite append_cons.
    apply orb_true_iff. right. rewrite Hb. cbn [andb].
    rewrite (mod3 (String.length r2) (k - 1) 1) by lia.
    destruct r2 as [| c r3]; [cbn [String.length] in Hlen; lia |].
    cbn [all_digits] in Hds. apply andb_true_iff in Hds as [Hc Hds].
    cbn [String.length] in Hlen.
    cbn [group]. rewrite append_cons.
    apply orb_true_iff. right. rewrite Hc. cbn [andb].
    rewrite (mod3 (String.length r3) (k - 1) 0) by lia.
    destruct r3 as [| d r4].
    + rewrite append_nil. exact Htail.
    + destruct k as [| [| k]]; try (cbn [String.length] in Hlen; lia).
      apply (group_multiple k); [cbn [String.length] in *; lia | exact Hds | exact Htail].
Qed.

Lemma two_digits_below_100 :
  forallb two_digits (map Z.of_nat (seq 0 100)) = true.
Proof. vm_compute. reflexivity. Qed.

Lemma fraction_two_digits (n : Z) :
  exists a b : ascii,
    fraction 2 n = String a (String b "") /\
    is_digit a = true /\ is_digit b = true.
Proof.
  unfold fraction. set (k := (n mod 10 ^ Z.of_nat 2)%Z).
  assert (Hk : (0 <= k < 100)%Z) by (apply Z.mod_pos_bound; reflexivity).
  pose proof two_digits_below_100 as Hall.
  rewrite forallb_forall in Hall. specialize (Hall k).
  unfold two_digits in Hall.
  destruct (zeros (2 - String.length (digits k)) ++ digits k)
    as [| a [| b [| c r]]].
  - discriminate Hall.
    apply in_map_iff. exists (Z.to_nat k). split; [lia | apply in_seq; lia].
  - discriminate Hall.
    apply in_map_iff. exists (Z.to_nat k). split; [lia | apply in_seq; lia].
  - exists a, b. split; [reflexivity |]. apply andb_true_iff, Hall.
    apply in_map_iff. exists (Z.to_nat k). split; [lia | apply in_seq; lia].
  - discriminate Hall.
    apply in_map_iff. exists (Z.to_nat k). split; [lia | apply in_seq; lia].
Qed.

Lemma digit_not_minus (c : ascii) : is_digit c = true -> (c =? "-")%char = false.
Proof.
  intros H. destruct (Ascii.eqb_spec c "-") as [-> |]; [discriminate H | reflexivity].
Qed.

(** Every finite number is displayed as a two-decimal, thousands-separated
    string. *)
Lemma fmt_money_format (q : Q) : money_format (fmt (Fin q)) = true.
Proof.
  unfold fmt, toLocaleString2.
  set (n := scaled 2 q).
  destruct (fraction_two_digits n) as (a & b & -> & Ha & Hb).
  assert (Htail : groups_then_cents ("." ++ String a (String b "")) = true).
  { rewrite append_cons, append_nil. cbn [groups_then_cents].
    change (("." =? ".")%char) with true. cbv iota. rewrite Ha, Hb. reflexivity. }
  pose proof (group_leading (digits (n / 100)) _
                (digits_nonempty _) (digits_all _) Htail) as Hlead.
  unfold minus_sign. destruct (Qle_bool 0 q).
  - rewrite append_nil.
    pose proof (digits_nonempty (n / 100)) as Hne.
    pose proof (digits_all (n / 100)) as Hds.
    destruct (digits (n / 100)) as [| c ds]; [contradiction |].
    cbn [all_digits] in Hds. apply andb_true_iff in Hds as [Hc _].
    cbn [group] in *. rewrite append_cons in *.
    unfold money_format. rewrite (digit_not_minus c Hc). exact Hlead.
  - rewrite append_cons, append_nil. unfold money_format.
    change (("-" =? "-")%char) with true. cbv iota. exact Hlead.
Qed.

Lemma money_field_shape (h : host) (input : gmap string value)
    (isSMSF : value) (L : locals) (k : string) :
  In k money_fields ->
  exists amount shown : number,
    field k (cashflow_record h input isSMSF L)
    = VStr (if is_blank_line k && negb (Num.truthy amount) then ""
            else fmt shown).
Proof.
  intros Hin. cbn [In money_fields] in Hin.
  repeat (destruct Hin as [<- | Hin];
          [ read_field;
            first [ exists 1%js; eexists; reflexivity
                  | unfold fmt_if; eexists; eexists;
                    match goal with
                    | |- context [Num.truthy ?a] => instantiate (2 := a)
                    end;
                    change (is_blank_line _) with true; cbn [andb];
                    destruct (Num.truthy _); reflexivity ] |]).
  contradiction.
Qed.

(** C8 (as first stated, refuted): a monetary field is not always a
    two-decimal string.  With the default 20% deposit the premium is 0 and
    the [lmi] field of the record is the empty string. *)
Lemma lmi_blank_without_premium :
  exists out,
    calculateCashflow sample_host scenario_input (VStr "NSW") (VBool false)
    = Return out /\
    In "lmi" money_fields /\
    field "lmi" out = VStr "" /\
    money_format "" = false.
Proof.
  eexists. split; [reflexivity |].
  split; [cbn; tauto |].
  split; [read_field; vm_compute; reflexivity | reflexivity].
Qed.

(** C8 (amended): every monetary field of the record is the [fmt] display
    of a number, which for a finite number is a two-decimal,
    thousands-separated string, except that the optional lines ([lmi],
    [strataReport], [renovation] and the strata, building-insurance and
    other-cost lines) are the empty string when their amount is 0 or NaN. *)
Theorem money_fields_formatted (h : host) (input : gmap string value)
    (state isSMSF : value) (out : list (string * value)) :
  calculateCashflow h input state isSMSF = Return out ->
  exists st : string,
    state_code state = Return st /\
    let L := cashflow_locals input st isSMSF in
    (forall k : string,
        In k money_fields -> is_blank_line k = false ->
        exists shown : number, field k out = VStr (fmt shown)) /\
    field "lmi" out = VStr (fmt_if (lmi L) (lmi L)) /\
    field "strataReport" out = VStr (fmt_if (strataReport L) (strataReport L)) /\
    field "renovation" out = VStr (fmt_if (renovation L) (renovation L)) /\
    field "strataWeekly" out = VStr (fmt_if (strataAnn L) (w (strataAnn L))) /\
    field "strataMonthly" out = VStr (fmt_if (strataAnn L) (m (strataAnn L))) /\
    field "strataAnnually" out = VStr (fmt_if (strataAnn L) (strataAnn L)) /\
    field "buildingInsWeekly" out
    = VStr (fmt_if (buildingInsAnn L) (w (buildingInsAnn L))) /\
    field "buildingInsMonthly" out
    = VStr (fmt_if (buildingInsAnn L) (m (buildingInsAnn L))) /\
    field "buildingInsAnnually" out
    = VStr (fmt_if (buildingInsAnn L) (buildingInsAnn L)) /\
    field "otherWeekly" out = VStr (fmt_if (otherAnn L) (w (otherAnn L))) /\
    field "otherMonthly" out = VStr (fmt_if (otherAnn L) (m (otherAnn L))) /\
    field "otherAnnually" out = VStr (fmt_if (otherAnn L) (otherAnn L)) /\
    (forall (x shown : number),
        fmt_if x shown = if Num.truthy x then fmt shown else "") /\
    (forall q : Q, money_format (fmt (Fin q)) = true).
Proof.
  unfold calculateCashflow. intros Hout.
  destruct (state_code state) as [st | e]; [| discriminate].
  injection Hout as <-. exists st. split; [reflexivity |]. cbv zeta.
  set (L := cashflow_locals input st isSMSF).
  split.
  { intros k Hin Hblank.
    destruct (money_field_shape h input isSMSF L k Hin) as (amount & shown & Hk).
    rewrite Hblank in Hk. now exists shown. }
  do 12 (split; [read_field; reflexivity |]).
  split; [reflexivity | apply fmt_money_format].
Qed.

Lemma money_fields_formatted_witness :
  exists out shown,
    calculateCashflow sample_host scenario_input (VStr "NSW") (VBool false)
    = Return out /\
    field "legals" out = VStr (fmt shown) /\
    field "renovation" out = VStr "".
Proof.
  eexists.
  destruct (money_fields_formatted
              sample_host scenario_input (VStr "NSW") (VBool false) _ eq_refl)
    as (st & Hst & Hmoney & _ & _ & Hreno & _).
  destruct (Hmoney "legals") as (shown & Hshown); [cbn; tauto | reflexivity |].
  exists shown. split; [reflexivity |]. split; [exact Hshown |].
  injection Hst as <-. rewrite Hreno. vm_compute. reflexivity.
Defined.

(** ** Totality *)

Lemma num_not_NaN (v : value) : (forall n, v <> VNum n) -> num v <> NaN.
Proof.
  intros Hv. destruct v as [| | b | n | s]; try (now elim (Hv n));
    unfold num;
    match goal with
    | |- context [if negb ?c then _ else _] => destruct c
    end; cbn [negb]; try discriminate;
    match goal with
    | |- context [Num.truthy ?x] => destruct x; cbn [Num.truthy]
    end;
    try discriminate;
    match goal with
    | |- context [negb ?c] => destruct c
    end; discriminate.
Qed.

Lemma num_absent_zero (v : value) : not_null v = false -> num v = 0%js.
Proof. destruct v; try discriminate; reflexivity. Qed.

Lemma num_unparseable (s : string) :
  parseFloat (strip_symbols s) = NaN -> num (VStr s) = 0%js.
Proof.
  intros H. unfold num. cbn [to_String]. rewrite H.
  destruct (negb (truthy (VStr s))); reflexivity.
Qed.

Lemma pct_zero (v : value) : num v = 0%js -> pct v = 0%js.
Proof. unfold pct. now intros ->. Qed.

(** C6: for every input mapping, every state that is a string or is
    absent, and every loan-type flag, [calculateCashflow] returns a record
    with every property, each display property a string; no branch throws.
    A value that is not a number never parses to NaN: an absent field reads
    as 0 or as its default, and an unparseable string reads as 0. *)
Theorem calculateCashflow_total (h : host) (input : gmap string value)
    (state isSMSF : value) :
  truthy state = false \/ (exists s : string, state = VStr s) ->
  (exists out : list (string * value),
      calculateCashflow h input state isSMSF = Return out /\
      map fst out = record_fields /\
      (forall k : string,
          In k record_fields -> k <> "date" -> k <> "totalExpenseLabel" ->
          exists s : string, field k out = VStr s)) /\
  (forall v : value, (forall n, v <> VNum n) -> num v <> NaN) /\
  (forall (k : string) (d : number),
      not_null (get input k) = false ->
      num (get input k) = 0%js /\ num_or input k d = d /\ pct_or input k d = d) /\
  (forall (k : string) (d : number) (s : string),
      get input k = VStr s -> parseFloat (strip_symbols s) = NaN ->
      num (get input k) = 0%js /\ num_or input k d = 0%js /\ pct_or input k d = 0%js).
Proof.
  intros Hstate.
  assert (Hst : exists st, state_code state = Return st).
  { destruct Hstate as [Hfalsy | [s ->]].
    - exists "NSW". now apply state_code_falsy.
    - exists (code_of s). apply state_code_string. }
  destruct Hst as (st & Hst).
  split; [| split; [| split]].
  - eexists. unfold calculateCashflow. rewrite Hst.
    split; [reflexivity |]. split; [reflexivity |].
    intros k Hin Hdate Hlabel. cbn [In record_fields] in Hin.
    repeat (destruct Hin as [<- | Hin];
            [ first [ congruence | read_field; eexists; reflexivity ] |]).
    contradiction.
  - exact num_not_NaN.
  - intros k d Habsent. split; [now apply num_absent_zero |].
    split; [now apply num_or_absent | now apply pct_or_absent].
  - intros k d s Hk Hparse.
    assert (Hnum : num (get input k) = 0%js)
      by (rewrite Hk; now apply num_unparseable).
    split; [exact Hnum |]. unfold num_or, pct_or. rewrite Hk. cbn [not_null].
    rewrite <- Hk. split; [exact Hnum | now apply pct_zero].
Qed.

Lemma calculateCashflow_total_witness :
  (exists out,
      calculateCashflow sample_host untidy_input (VStr "vic") (VBool true)
      = Return out /\
      map fst out = record_fields) /\
  num (get untidy_input "lowerRentWeekly") = 0%js /\
  num_or untidy_input "legals" DEFAULTS.legals = DEFAULTS.legals.
Proof.
  destruct (calculateCashflow_total
              sample_host untidy_input (VStr "vic") (VBool true))
    as ((out & Hout & Hkeys & _) & _ & Habsent & Hparse);
    [right; now exists "vic" |].
  split; [exists out; split; assumption |].
  split.
  - apply (Hparse "lowerRentWeekly" 0%js "n/a"); vm_compute; reflexivity.
  - apply (Habsent "legals" DEFAULTS.legals); vm_compute; reflexivity.
Defined.

(** * Part 3, continued: the code around the calculator *)

(** ** File names in the store *)

Example makeSafeName_sample :
  makeSafeName " 22  Baron Way, Gosnells (WA) " = "_22_Baron_Way_Gosnells_WA_".
Proof. reflexivity. Qed.

Ltac each_char c :=
  destruct c as [[] [] [] [] [] [] [] []]; try reflexivity; try discriminate.

Lemma all_of_app (p : ascii -> bool) (a b : string) :
  all_of p (a ++ b) = all_of p a && all_of p b.
Proof.
  induction a as [| c a IH]; [reflexivity |].
  rewrite append_cons. cbn [all_of]. rewrite IH. now rewrite andb_assoc.
Qed.

Lemma all_of_weaken (p q : ascii -> bool) (s : string) :
  (forall c, p c = true -> q c = true) -> all_of p s = true -> all_of q s = true.
Proof.
  intros Hpq. induction s as [| c s IH]; [reflexivity |]. cbn [all_of].
  intros [Hc Hs]%andb_true_iff. now rewrite (Hpq c Hc), IH.
Qed.

Lemma retain_all (p : ascii -> bool) (s : string) : all_of p (retain p s) = true.
Proof.
  induction s as [| c s IH]; [reflexivity |]. cbn [retain].
  destruct (p c) eqn:E; [| exact IH]. cbn [all_of]. now rewrite E, IH.
Qed.

Lemma retain_length (p : ascii -> bool) (s : string) :
  (String.length (retain p s) <= String.length s)%nat.
Proof.
  induction s as [| c s IH]; [reflexivity |]. cbn [retain].
  destruct (p c); cbn [String.length]; lia.
Qed.

Lemma retain_fixed (p : ascii -> bool) (s : string) :
  all_of p s = true -> retain p s = s.
Proof.
  induction s as [| c s IH]; [reflexivity |]. cbn [all_of retain].
  intros [Hc Hs]%andb_true_iff. now rewrite Hc, IH.
Qed.

Lemma replace_white_runs_length (s : string) :
  forall b, (String.length (replace_white_runs b s) <= String.length s)%nat.
Proof.
  induction s as [| c s IH]; intros b; [reflexivity |]. cbn [replace_white_runs].
  pose proof (IH true). pose proof (IH false).
  destruct (is_white c), b; cbn [String.length]; lia.
Qed.

Lemma name_char_not_white (c : ascii) : is_name_char c = true -> is_white c = false.
Proof. each_char c. Qed.

Lemma replace_white_runs_fixed (s : string) :
  all_of is_name_char s = true -> forall b, replace_white_runs b s = s.
Proof.
  induction s as [| c s IH]; [reflexivity |]. cbn [all_of].
  intros [Hc Hs]%andb_true_iff b. cbn [replace_white_runs].
  now rewrite (name_char_not_white c Hc), IH.
Qed.

Lemma makeSafeName_chars (name : string) :
  all_of is_name_char (makeSafeName name) = true.
Proof. apply retain_all. Qed.

(** X1: a safe name is made of letters, digits, underscores and hyphens
    only, and is no longer than the name it is made from. *)
Theorem makeSafeName_safe (name : string) :
  all_of is_name_char (makeSafeName name) = true /\
  (String.length (makeSafeName name) <= String.length name)%nat.
Proof.
  split; [apply makeSafeName_chars |]. unfold makeSafeName.
  pose proof (retain_length is_name_char (replace_white_runs false name)).
  pose proof (replace_white_runs_length name false). lia.
Qed.

(** X2: making a safe name of a safe name changes nothing. *)
Theorem makeSafeName_idempotent (name : string) :
  makeSafeName (makeSafeName name) = makeSafeName name.
Proof.
  pose proof (makeSafeName_chars name) as Hsafe.
  unfold makeSafeName at 1.
  rewrite replace_white_runs_fixed by exact Hsafe.
  now apply retain_fixed.
Qed.

Lemma all_from_spec (f : N -> bool) (k : nat) :
  forall from n : N,
    all_from f k from = true -> (from <= n < from + N.of_nat k)%N -> f n = true.
Proof.
  induction k as [| k IH]; intros from n; cbn [all_from]; [lia |].
  intros [Hf Hk]%andb_true_iff Hn.
  destruct (N.eq_dec n from) as [-> | Hne]; [exact Hf |].
  apply (IH (N.succ from)); [exact Hk | lia].
Qed.

Lemma padded_below_100 :
  all_from (fun n => two_digit_text (padStart 2 (String_N n))) 100 0 = true.
Proof. vm_compute. reflexivity. Qed.

Lemma years_of_four_digits :
  all_from (fun n => four_digit_text (String_N n)) (90 * 100) 1000 = true.
Proof. vm_compute. reflexivity. Qed.

Lemma padded_two_digits (n : N) :
  (n < 100)%N -> two_digit_text (padStart 2 (String_N n)) = true.
Proof.
  intros H. apply (all_from_spec _ 100 0 n padded_below_100).
  change (N.of_nat 100) with 100%N. lia.
Qed.

Lemma year_four_digits (n : N) :
  (1000 <= n <= 9999)%N -> four_digit_text (String_N n) = true.
Proof.
  intros H. apply (all_from_spec _ (90 * 100) 1000 n years_of_four_digits).
  replace (N.of_nat (90 * 100)) with 9000%N by (vm_compute; reflexivity). lia.
Qed.

Lemma two_digit_text_inv (s : string) :
  two_digit_text s = true ->
  exists a b, s = String a (String b "") /\ is_digit a = true /\ is_digit b = true.
Proof.
  destruct s as [| a [| b [| c s]]]; try discriminate. cbn [two_digit_text].
  intros [Ha Hb]%andb_true_iff. now exists a, b.
Qed.

Lemma four_digit_text_inv (s : string) :
  four_digit_text s = true ->
  exists a b c d, s = String a (String b (String c (String d ""))) /\
    is_digit a = true /\ is_digit b = true /\ is_digit c = true /\ is_digit d = true.
Proof.
  destruct s as [| a [| b r]]; try discriminate. cbn [four_digit_text].
  intros [[Ha Hb]%andb_true_iff Hr]%andb_true_iff.
  destruct (two_digit_text_inv r Hr) as (c & d & -> & Hc & Hd).
  now exists a, b, c, d.
Qed.

(** X3: for a date of a four-digit year the time stamp has the fixed
    width of [YYYYMMDD_HHMM], every field padded with zeros. *)
Theorem makeTimestamp_fixed_width (d : date) :
  (1000 <= getFullYear d <= 9999)%N ->
  (getMonth d < 12)%N ->
  (1 <= getDate d <= 31)%N ->
  (getHours d < 24)%N ->
  (getMinutes d < 60)%N ->
  timestamp_format (makeTimestamp d) = true /\
  String.length (makeTimestamp d) = 13%nat.
Proof.
  intros Hy Hm Hd Hh Hn. unfold makeTimestamp.
  destruct (four_digit_text_inv _ (year_four_digits _ Hy))
    as (y1 & y2 & y3 & y4 & -> & Hy1 & Hy2 & Hy3 & Hy4).
  destruct (two_digit_text_inv _ (padded_two_digits (getMonth d + 1) ltac:(lia)))
    as (m1 & m2 & -> & Hm1 & Hm2).
  destruct (two_digit_text_inv _ (padded_two_digits (getDate d) ltac:(lia)))
    as (d1 & d2 & -> & Hd1 & Hd2).
  destruct (two_digit_text_inv _ (padded_two_digits (getHours d) ltac:(lia)))
    as (h1 & h2 & -> & Hh1 & Hh2).
  destruct (two_digit_text_inv _ (padded_two_digits (getMinutes d) ltac:(lia)))
    as (n1 & n2 & -> & Hn1 & Hn2).
  repeat rewrite ?append_cons, ?append_nil.
  cbn [timestamp_format four_digit_text two_digit_text String.length].
  rewrite Hy1, Hy2, Hy3, Hy4, Hm1, Hm2, Hd1, Hd2, Hh1, Hh2, Hn1, Hn2.
  split; reflexivity.
Qed.

Lemma makeTimestamp_fixed_width_witness :
  timestamp_format
    (makeTimestamp {| getFullYear := 2026; getMonth := 0; getDate := 5;
                      getHours := 9; getMinutes := 7 |}) = true /\
  makeTimestamp {| getFullYear := 2026; getMonth := 0; getDate := 5;
                   getHours := 9; getMinutes := 7 |} = "20260105_0907".
Proof.
  split; [| reflexivity].
  apply (makeTimestamp_fixed_width
           {| getFullYear := 2026; getMonth := 0; getDate := 5;
              getHours := 9; getMinutes := 7 |}); cbn; lia.
Defined.

Lemma append_assoc (a b c : string) : (a ++ b) ++ c = a ++ b ++ c.
Proof.
  induction a as [| x a IH]; [reflexivity |].
  now rewrite !append_cons, IH.
Qed.


Lemma join_snoc (sep x : string) (l : list string) :
  join sep (l ++ [x])
  = match l with
    | [] => x
    | _ :: _ => join sep l ++ sep ++ x
    end.
Proof.
  unfold join. induction l as [| a l IH]; [reflexivity |].
  destruct l as [| b l]; [reflexivity |].
  change (String.concat sep ((a :: b :: l) ++ [x]))
    with (a ++ sep ++ String.concat sep ((b :: l) ++ [x])).
  rewrite IH.
  change (String.concat sep (a :: b :: l))
    with (a ++ sep ++ String.concat sep (b :: l)).
  now rewrite !append_assoc.
Qed.

Lemma toLowerCase_app (a b : string) :
  toLowerCase (a ++ b) = toLowerCase a ++ toLowerCase b.
Proof.
  induction a as [| x a IH]; [reflexivity |].
  rewrite append_cons. cbn [toLowerCase]. now rewrite append_cons, IH.
Qed.

Lemma prefix_app (a b : string) : String.prefix a (a ++ b) = true.
Proof.
  induction a as [| x a IH]; [now destruct b |].
  rewrite append_cons. cbn [String.prefix].
  destruct (ascii_dec x x); [exact IH | contradiction].
Qed.

Lemma makeTimestamp_nonempty (d : date) : makeTimestamp d <> "".
Proof.
  unfold makeTimestamp, String_N.
  pose proof (digits_nonempty (Z.of_N (getFullYear d))) as H.
  destruct (digits (Z.of_N (getFullYear d))); [contradiction | discriminate].
Qed.

Lemma filter_Boolean_snoc (l : list string) (x : string) :
  x <> "" -> filter_Boolean (l ++ [x]) = (filter_Boolean l ++ [x])%list.
Proof.
  intros Hx. unfold filter_Boolean. rewrite List.filter_app. cbn [List.filter].
  destruct (String.eqb_spec x ""); [contradiction | reflexivity].
Qed.

(** X4: the report that the route generates is found by its own check for
    an existing report: the name of the file written by [makePropertyPath]
    begins, letter case aside, with the prefix that the route passes to
    [dropboxListFolder]. *)
Theorem generated_report_is_listed (d : date) (name state postcode : string) :
  exists file : string,
    makePropertyPath d name state postcode = folders.property ++ "/" ++ file /\
    listed (propertyPrefix name state postcode) file = true.
Proof.
  unfold makePropertyPath, propertyPrefix.
  change [makeSafeName name; state; postcode; makeTimestamp d]
    with ([makeSafeName name; state; postcode] ++ [makeTimestamp d])%list.
  rewrite filter_Boolean_snoc by apply makeTimestamp_nonempty.
  rewrite join_snoc.
  destruct (filter_Boolean [makeSafeName name; state; postcode]) as [| a l] eqn:E.
  - exists (makeTimestamp d ++ ".pdf"). split; reflexivity.
  - exists (join "_" (a :: l) ++ "_" ++ makeTimestamp d ++ ".pdf").
    split; [now rewrite !append_assoc |].
    unfold listed. destruct (String.eqb _ ""); [reflexivity |].
    rewrite toLowerCase_app. apply prefix_app.
Qed.

Example makeSuburbDataPath_sample :
  makeSuburbDataPath "Box Hill" "VIC" "3128"
  = "/Properties Reports/Suburb Reports (Auto)/Box_Hill_VIC_3128_Suburb_Data.json".
Proof. reflexivity. Qed.

(** X5: the report of a suburb and the cache file of its data share
    their stem: with a state given, the path of the report is the path of
    the cache file with the time stamp and the report suffix in place of
    the data suffix. *)
Theorem suburb_paths_share_stem (d : date) (name st pc : string) :
  st <> "" ->
  exists stem : string,
    makeSuburbDataPath name st pc
    = folders.suburb ++ "/" ++ stem ++ "_Suburb_Data.json" /\
    makeSuburbPath d name st pc
    = folders.suburb ++ "/" ++ stem ++ "_" ++ makeTimestamp d
      ++ "_Suburb_Report.pdf".
Proof.
  intros Hst. unfold makeSuburbDataPath, makeSuburbPath.
  exists (join "_" (filter_Boolean [makeSafeName name; st; pc])).
  split; [reflexivity |].
  change [makeSafeName name; st; pc; makeTimestamp d]
    with ([makeSafeName name; st; pc] ++ [makeTimestamp d])%list.
  rewrite filter_Boolean_snoc by apply makeTimestamp_nonempty.
  rewrite join_snoc.
  destruct (filter_Boolean [makeSafeName name; st; pc]) as [| a l] eqn:E.
  - exfalso. unfold filter_Boolean in E. cbn [List.filter] in E.
    destruct (String.eqb_spec st ""); [contradiction |].
    destruct (negb (makeSafeName name =? "")); discriminate E.
  - now rewrite !append_assoc.
Qed.

Lemma suburb_paths_share_stem_witness :
  exists stem : string,
    makeSuburbDataPath "Box Hill" "VIC" "3128"
    = folders.suburb ++ "/" ++ stem ++ "_Suburb_Data.json" /\
    makeSuburbPath {| getFullYear := 2026; getMonth := 0; getDate := 5;
                      getHours := 9; getMinutes := 7 |} "Box Hill" "VIC" "3128"
    = folders.suburb ++ "/" ++ stem ++ "_"
      ++ makeTimestamp {| getFullYear := 2026; getMonth := 0; getDate := 5;
                          getHours := 9; getMinutes := 7 |}
      ++ "_Suburb_Report.pdf".
Proof. apply suburb_paths_share_stem. discriminate. Defined.

(** ** Addresses *)

Lemma take_while_spec (p : ascii -> bool) (n : nat) :
  forall s a r : string,
    take_while n p s = (a, r) ->
    s = a ++ r /\ all_of p a = true /\ (String.length a <= n)%nat.
Proof.
  induction n as [| n IH]; intros s a r.
  - cbn [take_while]. intros [= <- <-]. cbn. repeat split; lia.
  - destruct s as [| c s]; cbn [take_while].
    + intros [= <- <-]. cbn. repeat split; lia.
    + destruct (p c) eqn:Hc.
      * destruct (take_while n p s) as [a' r'] eqn:E. intros [= <- <-].
        destruct (IH s a' r' E) as (-> & Ha & Hlen).
        cbn [all_of String.length]. rewrite Hc, Ha, append_cons.
        repeat split; lia.
      * intros [= <- <-]. cbn. repeat split; lia.
Qed.

Lemma match_state_postcode_spec (s st pc : string) :
  match_state_postcode s = Some (st, pc) ->
  all_of is_upper st = true /\ (2 <= String.length st <= 3)%nat /\
  all_of is_digit pc = true /\ String.length pc = 4%nat.
Proof.
  unfold match_state_postcode.
  destruct (take_while 3 is_upper s) as [a r] eqn:E.
  destruct (take_while_spec _ _ _ _ _ E) as (_ & Ha & Hlen).
  destruct (_ && _) eqn:C; [| discriminate]. intros [= <- <-].
  apply andb_true_iff in C as [C Hd]. apply andb_true_iff in C as [C H4].
  apply andb_true_iff in C as [H2 _].
  apply Nat.leb_le in H2. apply Nat.eqb_eq in H4. repeat split; assumption || lia.
Qed.

Lemma parseAddress_shape (a : string) :
  (state (parseAddress a) = "" /\ postcode (parseAddress a) = "") \/
  (all_of is_upper (state (parseAddress a)) = true /\
   (2 <= String.length (state (parseAddress a)) <= 3)%nat /\
   all_of is_digit (postcode (parseAddress a)) = true /\
   String.length (postcode (parseAddress a)) = 4%nat).
Proof.
  unfold parseAddress.
  destruct (_ <? 2)%nat; [left; split; reflexivity |]. cbn [state postcode].
  destruct (match_state_postcode _) as [[st pc] |] eqn:E.
  - right. exact (match_state_postcode_spec _ _ _ E).
  - left. split; reflexivity.
Qed.

(** X6: whatever the address, the state and the postcode that
    [parseAddress] returns are both empty, or the state is two or three
    capital letters and the postcode four digits. *)
Theorem parseAddress_state_postcode (a : string) :
  (state (parseAddress a) = "" /\ postcode (parseAddress a) = "") \/
  (all_of is_upper (state (parseAddress a)) = true /\
   (2 <= String.length (state (parseAddress a)) <= 3)%nat /\
   all_of is_digit (postcode (parseAddress a)) = true /\
   String.length (postcode (parseAddress a)) = 4%nat).
Proof. exact (parseAddress_shape a). Qed.

Lemma split_whole (sep : ascii) (s : string) :
  includes sep s = false -> split sep s = [s].
Proof.
  induction s as [| c s IH]; [reflexivity |]. cbn [includes split].
  intros [Hc Hs]%orb_false_iff. now rewrite Hc, (IH Hs).
Qed.

Lemma split_app (sep : ascii) (a rest : string) :
  includes sep a = false ->
  split sep (a ++ String sep rest) = a :: split sep rest.
Proof.
  induction a as [| c a IH].
  - intros _. rewrite append_nil. cbn [split]. now rewrite Ascii.eqb_refl.
  - cbn [includes]. intros [Hc Ha]%orb_false_iff.
    rewrite append_cons. cbn [split]. now rewrite Hc, (IH Ha).
Qed.

(** X7: an address without a comma is not taken apart: it is returned
    whole as the street, with no suburb, state or postcode. *)
Theorem parseAddress_without_comma (a : string) :
  includes "," a = false ->
  parseAddress a = {| street := a; suburb := ""; state := ""; postcode := "" |}.
Proof.
  intros H. unfold parseAddress. now rewrite (split_whole _ _ H).
Qed.

Lemma parseAddress_without_comma_witness :
  parseAddress " 22 Baron Way Gosnells WA 6110"
  = {| street := " 22 Baron Way Gosnells WA 6110"; suburb := "";
       state := ""; postcode := "" |}.
Proof. apply parseAddress_without_comma. reflexivity. Defined.

Lemma includes_app (c : ascii) (a b : string) :
  includes c (a ++ b) = includes c a || includes c b.
Proof.
  induction a as [| x a IH]; [reflexivity |].
  rewrite append_cons. cbn [includes]. now rewrite IH, orb_assoc.
Qed.

Lemma excludes (p : ascii -> bool) (c : ascii) (s : string) :
  p c = false -> all_of p s = true -> includes c s = false.
Proof.
  intros Hc. induction s as [| x s IH]; [reflexivity |]. cbn [all_of includes].
  intros [Hx Hs]%andb_true_iff. rewrite (IH Hs), orb_false_r.
  destruct (Ascii.eqb_spec x c) as [-> |]; [congruence | reflexivity].
Qed.

Lemma upper_not_white (c : ascii) : is_upper c = true -> is_white c = false.
Proof. each_char c. Qed.

Lemma digit_not_white (c : ascii) : is_digit c = true -> is_white c = false.
Proof. each_char c. Qed.

Lemma digit_not_upper (c : ascii) : is_digit c = true -> is_upper c = false.
Proof. each_char c. Qed.

Lemma trimEnd_app (a b : string) :
  b <> "" -> trimEnd b = b -> trimEnd (a ++ b) = a ++ b.
Proof.
  intros Hb Hfix. induction a as [| c a IH]; [exact Hfix |].
  rewrite append_cons. cbn [trimEnd]. rewrite IH.
  destruct (a ++ b) eqn:E; [| reflexivity].
  destruct a; [now rewrite append_nil in E | discriminate E].
Qed.

Lemma trimEnd_solid (s : string) :
  all_of (fun c => negb (is_white c)) s = true -> trimEnd s = s.
Proof.
  induction s as [| c s IH]; [reflexivity |]. cbn [all_of trimEnd].
  intros [Hc Hs]%andb_true_iff. rewrite (IH Hs).
  apply negb_true_iff in Hc. rewrite Hc. now destruct s.
Qed.

Lemma state_and_postcode (st pc : string) :
  all_of is_upper st = true -> (2 <= String.length st <= 3)%nat ->
  all_of is_digit pc = true -> String.length pc = 4%nat ->
  trim (" " ++ st ++ " " ++ pc) = st ++ " " ++ pc /\
  match_state_postcode (st ++ " " ++ pc) = Some (st, pc) /\
  includes "," (" " ++ st ++ " " ++ pc) = false.
Proof.
  intros Hst Hlen Hpc Hlen'.
  destruct pc as [| d1 [| d2 [| d3 [| d4 [| d5 pc]]]]]; try discriminate Hlen'.
  cbn [all_of] in Hpc. rewrite andb_true_r in Hpc.
  apply andb_true_iff in Hpc as [H1 Hpc]. apply andb_true_iff in Hpc as [H2 Hpc].
  apply andb_true_iff in Hpc as [H3 H4].
  assert (Htail : trimEnd (String " " (String d1 (String d2 (String d3 (String d4 "")))))
                  = String " " (String d1 (String d2 (String d3 (String d4 ""))))).
  { cbn [trimEnd]. rewrite (digit_not_white d4 H4). reflexivity. }
  assert (Hcomma : forall c, is_upper c = true -> (c =? ",")%char = false)
    by (intros c; each_char c).
  assert (Hcomma' : forall c, is_digit c = true -> (c =? ",")%char = false)
    by (intros c; each_char c).
  destruct st as [| a [| b [| c [| e st]]]]; cbn [String.length] in Hlen; try lia;
    cbn [all_of] in Hst; rewrite ?andb_true_r in Hst;
    repeat match type of Hst with
      | (_ && _) = true => let H := fresh "Hu" in apply andb_true_iff in Hst as [H Hst]
      end;
    repeat rewrite ?append_cons, ?append_nil;
    (split; [| split]).
  - unfold trim. cbn [trimStart is_white N_of_ascii N.leb N.eqb N.compare Pos.compare Pos.compare_cont andb orb Pos.eqb].
    change (is_white " ") with true. cbv iota.
    rewrite (upper_not_white a Hu).
    change (String a (String b (String " " (String d1 (String d2 (String d3 (String d4 "")))))))
      with (String a (String b "") ++ String " " (String d1 (String d2 (String d3 (String d4 ""))))).
    now apply trimEnd_app.
  - unfold match_state_postcode. cbn [take_while]. rewrite Hu, Hst.
    change (is_upper " ") with false. cbv iota.
    cbn [trimStart]. change (is_white " ") with true. cbv iota.
    rewrite (digit_not_white d1 H1). cbn [String.length all_of].
    rewrite H1, H2, H3, H4. reflexivity.
  - cbn [includes]. rewrite (Hcomma a Hu), (Hcomma b Hst), (Hcomma' d1 H1),
      (Hcomma' d2 H2), (Hcomma' d3 H3), (Hcomma' d4 H4). reflexivity.
  - unfold trim. cbn [trimStart]. change (is_white " ") with true. cbv iota.
    rewrite (upper_not_white a Hu).
    change (String a (String b (String c (String " " (String d1 (String d2 (String d3 (String d4 ""))))))))
      with (String a (String b (String c "")) ++ String " " (String d1 (String d2 (String d3 (String d4 ""))))).
    now apply trimEnd_app.
  - unfold match_state_postcode. cbn [take_while]. rewrite Hu, Hu0, Hst.
    cbn [trimStart]. change (is_white " ") with true. cbv iota.
    rewrite (digit_not_white d1 H1). cbn [String.length all_of].
    rewrite H1, H2, H3, H4. reflexivity.
  - cbn [includes]. rewrite (Hcomma a Hu), (Hcomma b Hu0), (Hcomma c Hst),
      (Hcomma' d1 H1), (Hcomma' d2 H2), (Hcomma' d3 H3), (Hcomma' d4 H4).
    reflexivity.
Qed.

(** X8: an address written as street, suburb, state and postcode is taken
    apart into exactly these four parts. *)
Theorem parseAddress_round_trip (str sub st pc : string) :
  includes "," str = false -> trim str = str ->
  includes "," sub = false -> trim sub = sub ->
  all_of is_upper st = true -> (2 <= String.length st <= 3)%nat ->
  all_of is_digit pc = true -> String.length pc = 4%nat ->
  parseAddress (str ++ ", " ++ sub ++ ", " ++ st ++ " " ++ pc)
  = {| street := str; suburb := sub; state := st; postcode := pc |}.
Proof.
  intros Hstr Tstr Hsub Tsub Hst Hlen Hpc Hlen'.
  destruct (state_and_postcode st pc Hst Hlen Hpc Hlen') as (Htrim & Hmatch & Hcomma).
  unfold parseAddress.
  change (", " ++ sub ++ ", " ++ st ++ " " ++ pc)
    with (String "," (" " ++ sub ++ String "," (" " ++ st ++ " " ++ pc))).
  rewrite (split_app "," str _ Hstr).
  change (" " ++ sub ++ String "," (" " ++ st ++ " " ++ pc))
    with (String " " (sub ++ String "," (" " ++ st ++ " " ++ pc))).
  assert (Hsub' : includes "," (String " " sub) = false) by exact Hsub.
  change (String " " (sub ++ String "," (" " ++ st ++ " " ++ pc)))
    with (String " " sub ++ String "," (" " ++ st ++ " " ++ pc)).
  rewrite (split_app "," _ _ Hsub'), (split_whole _ _ Hcomma).
  cbn [map List.length Nat.ltb Nat.leb nth Nat.sub].
  rewrite Htrim, Hmatch, Tstr.
  change (trim (String " " sub)) with (trim sub). now rewrite Tsub.
Qed.

Lemma parseAddress_round_trip_witness :
  parseAddress "22 Baron Way, Gosnells, WA 6110"
  = {| street := "22 Baron Way"; suburb := "Gosnells"; state := "WA";
       postcode := "6110" |}.
Proof.
  apply (parseAddress_round_trip "22 Baron Way" "Gosnells" "WA" "6110");
    first [reflexivity | cbn; lia].
Defined.

Lemma all_digits_all_of (s : string) : all_of is_digit s = all_digits s.
Proof. induction s as [| c s IH]; [reflexivity |]. cbn. now rewrite IH. Qed.

Lemma zeros_digits (n : nat) : all_of is_digit (zeros n) = true.
Proof. induction n as [| n IH]; [reflexivity | exact IH]. Qed.

Lemma digit_name_char (c : ascii) : is_digit c = true -> is_name_char c = true.
Proof. each_char c. Qed.

Lemma upper_name_char (c : ascii) : is_upper c = true -> is_name_char c = true.
Proof. each_char c. Qed.

Lemma String_N_digits (n : N) : all_of is_digit (String_N n) = true.
Proof. rewrite all_digits_all_of. apply digits_all. Qed.

Lemma padStart_digits (k : nat) (n : N) :
  all_of is_digit (padStart k (String_N n)) = true.
Proof.
  unfold padStart. now rewrite all_of_app, zeros_digits, String_N_digits.
Qed.

Lemma makeTimestamp_chars (d : date) : all_of is_name_char (makeTimestamp d) = true.
Proof.
  unfold makeTimestamp. rewrite !all_of_app.
  rewrite !(all_of_weaken _ _ _ digit_name_char (padStart_digits _ _)).
  now rewrite (all_of_weaken _ _ _ digit_name_char (String_N_digits _)).
Qed.

Lemma join_chars (p : ascii -> bool) (sep : string) (l : list string) :
  all_of p sep = true -> Forall (fun s => all_of p s = true) l ->
  all_of p (join sep l) = true.
Proof.
  intros Hsep. unfold join. induction 1 as [| a l Ha Hl IH]; [reflexivity |].
  destruct l as [| b l]; [exact Ha |].
  change (String.concat sep (a :: b :: l))
    with (a ++ sep ++ String.concat sep (b :: l)).
  now rewrite !all_of_app, Ha, Hsep, IH.
Qed.

Lemma filter_Boolean_Forall (P : string -> Prop) (l : list string) :
  Forall P l -> Forall P (filter_Boolean l).
Proof.
  unfold filter_Boolean. induction 1 as [| a l Ha Hl IH]; [constructor |].
  cbn [List.filter]. destruct (negb _); [now constructor | exact IH].
Qed.

(** X9: for a state and a postcode read from an address by
    [parseAddress], the path of a property report lies directly in the
    folder of the property reports: the name of the file is made of
    letters, digits, underscores and hyphens, then [.pdf]. *)
Theorem parsed_address_path_safe (d : date) (name a : string) :
  exists file : string,
    makePropertyPath d name (state (parseAddress a)) (postcode (parseAddress a))
    = folders.property ++ "/" ++ file ++ ".pdf" /\
    all_of is_name_char file = true.
Proof.
  unfold makePropertyPath. eexists. split; [reflexivity |].
  apply join_chars; [reflexivity |]. apply filter_Boolean_Forall.
  destruct (parseAddress_shape a) as [[-> ->] | (Hst & _ & Hpc & _)].
  - repeat constructor; first [apply makeSafeName_chars | apply makeTimestamp_chars].
  - repeat constructor;
      first [ apply makeSafeName_chars | apply makeTimestamp_chars
            | exact (all_of_weaken _ _ _ upper_name_char Hst)
            | exact (all_of_weaken _ _ _ digit_name_char Hpc) ].
Qed.

(** ** Insights *)

Lemma append_nonempty (a b : string) : a <> "" -> a ++ b <> "".
Proof. destruct a; [contradiction | discriminate]. Qed.

(** X10: an insight that carries a label is never labelled again, whatever
    the labels of the second call. *)
Theorem fmtInsight_labels_once (value r s r' s' : string) :
  r <> "" \/ s <> "" ->
  fmtInsight (fmtInsight value r s) r' s' = fmtInsight value r s.
Proof.
  intros Hlabel.
  assert (Hlabelled : forall l,
             value <> "" ->
             fmtInsight (value ++ " (" ++ l) r' s' = value ++ " (" ++ l).
  { intros l Hv. unfold fmtInsight.
    destruct (String.eqb_spec (value ++ " (" ++ l) "") as [E |];
      [now apply append_nonempty in E |].
    rewrite includes_app.
    change (" (" ++ l) with (String " " (String "(" l)). cbn [includes].
    rewrite Ascii.eqb_refl. now rewrite !orb_true_r. }
  remember (fmtInsight value r s) as out eqn:E. unfold fmtInsight in E.
  destruct (String.eqb_spec value "") as [-> | Hv]; [now subst out |].
  destruct (includes "(" value) eqn:Hin.
  - subst out. unfold fmtInsight. rewrite Hin.
    destruct (String.eqb_spec value ""); [contradiction | reflexivity].
  - destruct (String.eqb_spec r "") as [-> | Hr], (String.eqb_spec s "") as [-> | Hs];
      cbn [app] in E; subst out; try now apply Hlabelled.
    now destruct Hlabel.
Qed.

Lemma fmtInsight_labels_once_witness :
  fmtInsight (fmtInsight "1.2%" "Ideal under 1.5%" "SQM Research")
    "Ideal under 2%" "DSR Data"
  = "1.2% (Ideal under 1.5% | SQM Research)".
Proof.
  rewrite (fmtInsight_labels_once "1.2%" "Ideal under 1.5%" "SQM Research"
             "Ideal under 2%" "DSR Data"); [reflexivity |].
  left. discriminate.
Defined.

(** ** Reading decimal text *)

Local Close Scope js_scope.

Lemma digit_val_char (d : Z) : 0 <= d < 10 -> digit_val (digit_char d) = d.
Proof.
  intros H.
  assert (d = 0 \/ d = 1 \/ d = 2 \/ d = 3 \/ d = 4 \/ d = 5 \/ d = 6
          \/ d = 7 \/ d = 8 \/ d = 9) as Hd by lia.
  repeat (destruct Hd as [-> | Hd]; [reflexivity |]). subst d. reflexivity.
Qed.

Lemma read_digit (a : Z) (c : nat) (d : Z) (s : string) :
  0 <= d < 10 ->
  read_digits a c (String (digit_char d) s) = read_digits (10 * a + d) (S c) s.
Proof.
  intros H. cbn [read_digits].
  now rewrite digit_char_is_digit, digit_val_char by assumption.
Qed.

Lemma digits_pos_app (fuel : nat) :
  forall (p : positive) (acc rest : string),
    digits_pos p fuel acc ++ rest = digits_pos p fuel (acc ++ rest).
Proof.
  induction fuel as [| fuel IH]; intros p acc rest; cbn [digits_pos]; [reflexivity |].
  destruct (Z.pos p / 10); rewrite ?IH; reflexivity.
Qed.

Lemma size_nat_tenth (p p' : positive) :
  Z.pos p / 10 = Z.pos p' -> (S (Pos.size_nat p') <= Pos.size_nat p)%nat.
Proof.
  intros E.
  assert (Hq : forall q : positive, Z.pos p' <= Z.pos q ->
                 (Pos.size_nat p' <= Pos.size_nat q)%nat).
  { intros q Hle. destruct (Pos.eq_dec p' q) as [-> | Hne]; [lia |].
    apply Pos.size_nat_monotone. lia. }
  pose proof (Z.div_mod (Z.pos p) 10 ltac:(lia)) as Hp.
  pose proof (Z.mod_pos_bound (Z.pos p) 10 ltac:(lia)) as Hd.
  rewrite E in Hp.
  destruct p as [q | q |]; cbn [Pos.size_nat].
  - apply le_n_S, Hq. lia.
  - apply le_n_S, Hq. lia.
  - discriminate E.
Qed.

Lemma read_digits_pos (fuel : nat) :
  forall (p : positive) (rest : string),
    (Pos.size_nat p <= fuel)%nat ->
    exists k : nat,
      (0 < k)%nat /\
      forall a c,
        read_digits a c (digits_pos p fuel rest)
        = read_digits (a * 10 ^ Z.of_nat k + Z.pos p) (c + k) rest.
Proof.
  induction fuel as [| fuel IH]; intros p rest Hfuel.
  - destruct p; cbn [Pos.size_nat] in Hfuel; lia.
  - cbn [digits_pos].
    assert (Hd : 0 <= Z.pos p mod 10 < 10) by (apply Z.mod_pos_bound; lia).
    pose proof (Z.div_mod (Z.pos p) 10 ltac:(lia)) as Hp.
    destruct (Z.pos p / 10) as [| p' | p'] eqn:E.
    + exists 1%nat. split; [lia |]. intros a c. rewrite (read_digit _ _ _ _ Hd).
      change (10 ^ Z.of_nat 1) with 10. f_equal; lia.
    + pose proof (size_nat_tenth p p' E) as Hsize.
      destruct (IH p' (String (digit_char (Z.pos p mod 10)) rest) ltac:(lia))
        as (k & Hk & Hread).
      exists (S k). split; [lia |]. intros a c.
      rewrite Hread, (read_digit _ _ _ _ Hd).
      rewrite Nat2Z.inj_succ, Z.pow_succ_r by lia.
      f_equal; [| lia]. rewrite Hp at 2. ring.
    + lia.
Qed.

Lemma read_digits_digits (n : Z) (rest : string) :
  0 <= n ->
  exists k : nat,
    (0 < k)%nat /\
    forall a c,
      read_digits a c (digits n ++ rest)
      = read_digits (a * 10 ^ Z.of_nat k + n) (c + k) rest.
Proof.
  intros Hn. destruct n as [| p | p]; [| | lia].
  - exists 1%nat. split; [lia |]. intros a c.
    change (digits 0 ++ rest) with (String (digit_char 0) rest).
    rewrite read_digit by lia. change (10 ^ Z.of_nat 1) with 10. f_equal; lia.
  - unfold digits. rewrite digits_pos_app, append_nil.
    apply read_digits_pos. lia.
Qed.

Lemma digits_head (n : Z) :
  exists c s, digits n = String c s /\ is_digit c = true.
Proof.
  pose proof (digits_nonempty n) as Hne. pose proof (digits_all n) as Hall.
  destruct (digits n) as [| c s]; [contradiction |]. exists c, s.
  cbn [all_digits] in Hall. apply andb_true_iff in Hall as [Hc _]. now split.
Qed.

Lemma digit_starts_number (c : ascii) (s : string) :
  is_digit c = true ->
  trimStart (String c s) = String c s /\
  read_sign (String c s) = (false, String c s) /\
  String.prefix "Infinity" (String c s) = false.
Proof. each_char c; intros _; repeat split. Qed.



(** ** Reading a displayed amount back *)

Ltac triple_eq :=
  apply pair_equal_spec; split; [apply pair_equal_spec; split |];
  first [reflexivity | lia | ring].

Lemma read_digits_linear (s : string) :
  exists (m : Z) (k : nat) (r : string),
    forall a c, read_digits a c s = (a * 10 ^ Z.of_nat k + m, (c + k)%nat, r).
Proof.
  induction s as [| d s (m & k & r & IH)].
  - exists 0, 0%nat, "". intros a c. cbn [read_digits].
    change (10 ^ Z.of_nat 0) with 1. triple_eq.
  - cbn [read_digits]. destruct (is_digit d).
    + exists (digit_val d * 10 ^ Z.of_nat k + m), (S k), r. intros a c.
      rewrite IH, Nat2Z.inj_succ, Z.pow_succ_r by lia.
      triple_eq.
    + exists 0, 0%nat, (String d s). intros a c.
      change (10 ^ Z.of_nat 0) with 1. triple_eq.
Qed.

Lemma fractions_read_back : all_from fraction_reads_back 100 0 = true.
Proof. vm_compute. reflexivity. Qed.

Lemma read_fraction (n i : Z) :
  read_digits i 0 (fraction 2 n) = (i * 100 + n mod 100, 2%nat, "").
Proof.
  assert (Hr : 0 <= n mod 100 < 100) by (apply Z.mod_pos_bound; lia).
  assert (Hsame : fraction 2 n = fraction 2 (n mod 100)).
  { unfold fraction. change (10 ^ Z.of_nat 2) with 100. now rewrite Z.mod_mod. }
  rewrite Hsame.
  pose proof (all_from_spec _ 100 0 (Z.to_N (n mod 100)) fractions_read_back
                ltac:(change (N.of_nat 100) with 100%N; lia)) as Hback.
  unfold fraction_reads_back in Hback. rewrite Z2N.id in Hback by lia.
  destruct (read_digits_linear (fraction 2 (n mod 100))) as (m & k & r & Hlin).
  rewrite Hlin in Hback. rewrite Hlin.
  apply andb_true_iff in Hback as [Hback Hrest].
  apply andb_true_iff in Hback as [Hm Hk].
  apply Z.eqb_eq in Hm. apply Nat.eqb_eq in Hk. apply String.eqb_eq in Hrest.
  cbn [Nat.add] in *. subst k r. change (10 ^ Z.of_nat 2) with 100 in *.
  triple_eq.
Qed.

Lemma strip_symbols_app (a b : string) :
  strip_symbols (a ++ b) = strip_symbols a ++ strip_symbols b.
Proof.
  induction a as [| c a IH]; [reflexivity |].
  rewrite append_cons. cbn [strip_symbols].
  destruct (_ || _); [exact IH | now rewrite append_cons, IH].
Qed.

Lemma digit_not_symbol (c : ascii) :
  is_digit c = true -> ((c =? ",") || (c =? "$") || (c =? "%"))%char = false.
Proof. each_char c. Qed.

Lemma strip_symbols_digits (s : string) :
  all_digits s = true -> strip_symbols s = s.
Proof.
  induction s as [| c s IH]; [reflexivity |]. cbn [all_digits strip_symbols].
  intros [Hc Hs]%andb_true_iff. now rewrite (digit_not_symbol c Hc), IH.
Qed.

Lemma strip_symbols_group (s : string) :
  all_digits s = true -> strip_symbols (group s) = s.
Proof.
  induction s as [| c s IH]; [reflexivity |]. cbn [all_digits group].
  intros [Hc Hs]%andb_true_iff. cbn [strip_symbols].
  rewrite (digit_not_symbol c Hc). f_equal.
  destruct (String.length s mod 3)%nat, s; exact (IH Hs).
Qed.

Lemma strip_symbols_fmt (q : Q) :
  strip_symbols (fmt (Fin q))
  = minus_sign q ++ digits (scaled 2 q / 100) ++ "." ++ fraction 2 (scaled 2 q).
Proof.
  unfold fmt, toLocaleString2. rewrite !strip_symbols_app.
  rewrite strip_symbols_group by apply digits_all.
  destruct (fraction_two_digits (scaled 2 q)) as (a & b & -> & Ha & Hb).
  f_equal; [unfold minus_sign; now destruct (Qle_bool 0 q) |]. f_equal.
  cbn [strip_symbols]. change (("." =? ",")%char || ("." =? "$")%char || ("." =? "%")%char) with false.
  rewrite append_cons, append_nil. cbn [strip_symbols].
  now rewrite (digit_not_symbol a Ha), (digit_not_symbol b Hb).
Qed.

Lemma scaled_nonneg (f : nat) (q : Q) : 0 <= scaled f q.
Proof.
  unfold scaled.
  assert (H : (0 <= Qabs q * inject_Z (10 ^ Z.of_nat f) + (1 # 2))%Q).
  { pose proof (Qabs_nonneg q).
    assert (0 <= inject_Z (10 ^ Z.of_nat f))%Q
      by (change 0%Q with (inject_Z 0); rewrite <- Zle_Qle;
          apply Z.pow_nonneg; lia).
    assert (0 <= Qabs q * inject_Z (10 ^ Z.of_nat f))%Q
      by now apply Qmult_le_0_compat.
    lra. }
  apply Qfloor_resp_le in H. exact H.
Qed.

(** The digits of a displayed amount, without separators, are read by
    [parseFloat] as the amount in cents over 100. *)
Lemma parseFloat_amount (n : Z) :
  0 <= n ->
  parseFloat (digits (n / 100) ++ "." ++ fraction 2 n)
  = Fin (inject_Z n * (1 # 100)) /\
  parseFloat ("-" ++ digits (n / 100) ++ "." ++ fraction 2 n)
  = Fin (- (inject_Z n * (1 # 100))).
Proof.
  intros Hn.
  assert (Hq : 0 <= n / 100) by (apply Z.div_pos; lia).
  destruct (digits_head (n / 100)) as (c & s & Hc & Hdigit).
  destruct (read_digits_digits (n / 100) ("." ++ fraction 2 n) Hq) as (k & Hk & Hread).
  assert (Hvalue : (n / 100) * 100 + n mod 100 = n)
    by (pose proof (Z.div_mod n 100 ltac:(lia)); lia).
  assert (Hbody : forall neg : bool,
             (let '(i, ni, s2) := read_digits 0 0 (digits (n / 100) ++ "." ++ fraction 2 n) in
              let '(m, nf, s3) :=
                match s2 with
                | String "." s' => read_digits i 0 s'
                | _ => (i, O, s2)
                end in
              match (ni + nf)%nat with
              | O => NaN
              | S _ =>
                  let e := read_exponent s3 in
                  let q := (inject_Z m * 10 ^ (e - Z.of_nat nf))%Q in
                  Fin (if neg then - q else q)
              end)
             = Fin (if neg then - (inject_Z n * (1 # 100)) else inject_Z n * (1 # 100))%Q).
  { intros neg. rewrite Hread.
    change ("." ++ fraction 2 n) with (String "." (fraction 2 n)).
    cbn [read_digits is_digit N_of_ascii]. 
    change (is_digit ".") with false. cbv iota.
    rewrite read_fraction.
    replace ((0 * 10 ^ Z.of_nat k + n / 100) * 100 + n mod 100) with n by lia.
    destruct k as [| k]; [lia |]. reflexivity. }
  split.
  - unfold parseFloat. rewrite Hc, append_cons.
    destruct (digit_starts_number c (s ++ "." ++ fraction 2 n) Hdigit) as (-> & -> & ->).
    rewrite <- append_cons, <- Hc. exact (Hbody false).
  - unfold parseFloat. change ("-" ++ digits (n / 100) ++ "." ++ fraction 2 n)
      with (String "-" (digits (n / 100) ++ "." ++ fraction 2 n)).
    change (trimStart (String "-" ?x)) with (String "-" x).
    cbn [trimStart read_sign].
    change (is_white "-") with false. cbv iota. cbn [read_sign].
    rewrite Hc, append_cons.
    destruct (digit_starts_number c (s ++ "." ++ fraction 2 n) Hdigit) as (_ & _ & ->).
    rewrite <- append_cons, <- Hc. exact (Hbody true).
Qed.

Lemma fmt_nonempty (q : Q) : fmt (Fin q) <> "".
Proof.
  intros E. pose proof (strip_symbols_fmt q) as H. rewrite E in H. cbn [strip_symbols] in H.
  destruct (digits_head (scaled 2 q / 100)) as (c & s & Hc & _).
  rewrite Hc in H. unfold minus_sign in H.
  destruct (Qle_bool 0 q); discriminate H.
Qed.

Lemma hundredths (n : Z) : (inject_Z n * (1 # 100) == n # 100)%Q.
Proof. unfold Qeq. cbn. lia. Qed.

Lemma num_fmt (q : Q) : (num (VStr (fmt (Fin q))) ≈ Fin (to_cents q))%js.
Proof.
  unfold num. cbn [truthy to_String].
  destruct (String.eqb_spec (fmt (Fin q)) "") as [E | _];
    [now apply fmt_nonempty in E |]. cbn [negb].
  rewrite strip_symbols_fmt. unfold to_cents, minus_sign.
  destruct (parseFloat_amount (scaled 2 q) (scaled_nonneg 2 q)) as [Hpos Hneg].
  destruct (Qle_bool 0 q).
  - rewrite append_nil, Hpos. cbn [Num.truthy].
    destruct (Num.is_zero _) eqn:Z; cbn [negb Num.equiv].
    + apply is_zero_iff in Z. rewrite <- hundredths, Z. reflexivity.
    + apply hundredths.
  - rewrite Hneg. cbn [Num.truthy].
    destruct (Num.is_zero _) eqn:Z; cbn [negb Num.equiv].
    + apply is_zero_iff in Z. rewrite <- hundredths.
      change (0 # 1)%Q with 0%Q. rewrite <- Z. reflexivity.
    + now rewrite hundredths.
Qed.

Lemma Qfloor_half (z : Z) : Qfloor (inject_Z z + (1 # 2)) = z.
Proof.
  pose proof (Qfloor_le (inject_Z z + (1 # 2))) as Hle.
  pose proof (Qlt_floor (inject_Z z + (1 # 2))) as Hlt.
  set (f := Qfloor (inject_Z z + (1 # 2))) in *.
  assert (H1 : (inject_Z f < inject_Z (z + 1))%Q)
    by (rewrite inject_Z_plus; change (inject_Z 1) with 1%Q; lra).
  assert (H2 : (inject_Z z < inject_Z (f + 1))%Q) by lra.
  rewrite <- Zlt_Qlt in H1, H2. lia.
Qed.

Lemma to_cents_exact (q : Q) (c : Z) : (q == c # 100)%Q -> (to_cents q == q)%Q.
Proof.
  intros H. unfold to_cents, scaled.
  assert (Hscaled : Qfloor (Qabs q * inject_Z (10 ^ Z.of_nat 2) + (1 # 2)) = Z.abs c).
  { rewrite <- (Qfloor_half (Z.abs c)). apply Qfloor_comp.
    rewrite H. change (Qabs (c # 100)) with (Z.abs c # 100)%Q.
    change (inject_Z (10 ^ Z.of_nat 2)) with (100 # 1)%Q.
    unfold Qeq. cbn. lia. }
  rewrite Hscaled.
  destruct (Qle_bool 0 q) eqn:E.
  - apply Qle_bool_iff in E. rewrite H in E. rewrite H.
    assert (0 <= c) by (unfold Qle in E; cbn in E; lia).
    unfold Qeq. cbn. lia.
  - assert (Hneg : ~ (0 <= q)%Q) by (intros Hle; apply Qle_bool_iff in Hle; congruence).
    rewrite H in Hneg. rewrite H.
    assert (c < 0) by (unfold Qle in Hneg; cbn in Hneg; lia).
    unfold Qeq. cbn. lia.
Qed.

(** X11: reading a displayed amount back with [num] gives the amount
    rounded to whole cents; an amount of whole cents is read back
    exactly. *)
Theorem num_reads_fmt (q : Q) :
  (num (VStr (fmt (Fin q))) ≈ Fin (to_cents q))%js /\
  forall c : Z, (q == c # 100)%Q -> (num (VStr (fmt (Fin q))) ≈ Fin q)%js.
Proof.
  split; [apply num_fmt |]. intros c Hc.
  pose proof (num_fmt q) as H. pose proof (to_cents_exact q c Hc) as Hexact.
  destruct (num (VStr (fmt (Fin q)))); cbn [Num.equiv] in *; try contradiction.
  now rewrite H.
Qed.

Lemma num_reads_fmt_witness :
  fmt (Fin (123456789 # 100)) = "1,234,567.89" /\
  (num (VStr (fmt (Fin (123456789 # 100)))) ≈ Fin (123456789 # 100))%js.
Proof.
  split; [vm_compute; reflexivity |].
  apply (proj2 (num_reads_fmt (123456789 # 100)) 123456789). reflexivity.
Defined.

(** ** Scraped prices and rents *)













Local Open Scope js_scope.



Example parsePrice_sign_dropped : parsePrice (VStr "-500000") ≈ 500000.
Proof. vm_compute. reflexivity. Qed.

Example parsePrice_no_digit : parsePrice (VStr ".k") = NaN.
Proof. vm_compute. reflexivity. Qed.

(** *** Amounts and their suffixes *)

Local Close Scope js_scope.















Local Open Scope js_scope.



Local Close Scope js_scope.










Lemma digit_amount_char (c : ascii) : is_digit c = true -> is_amount_char c = true.
Proof. unfold is_amount_char. now intros ->. Qed.


Local Open Scope js_scope.






(** Strings are read before numbers again. *)
Local Close Scope string_scope.
Local Open Scope string_scope.

(** ** More on the calculators *)

(** X15: for a loan that is not negative the premium is between 0 and 3.5%
    of the loan, and a larger deposit ratio never gives a larger
    premium. *)
Theorem calcLMI_falls_with_deposit (d1 d2 l : Q) :
  (0 <= l)%Q -> (d1 <= d2)%Q ->
  exists x1 x2 : Q,
    calcLMI (Fin d1) (Fin l) = Fin x1 /\ calcLMI (Fin d2) (Fin l) = Fin x2 /\
    (0 <= x2)%Q /\ (x2 <= x1)%Q /\ (x1 <= 0.035 * l)%Q.
Proof.
  intros Hl Hd. unfold calcLMI, Num.geb. cbn [Num.leb Num.mul].
  brackets;
    (eexists; eexists; split; [reflexivity |]; split; [reflexivity |]);
    repeat split; lra.
Qed.

Lemma calcLMI_falls_with_deposit_witness :
  exists x1 x2 : Q,
    calcLMI 0.10 540000 = Fin x1 /\ calcLMI 0.15 540000 = Fin x2 /\
    (0 <= x2)%Q /\ (x2 <= x1)%Q /\ (x1 <= 0.035 * 540000)%Q.
Proof. apply (calcLMI_falls_with_deposit 0.10 0.15 540000); lra. Defined.



(** *** The state code *)

Lemma upper_idem (c : ascii) : upper (upper c) = upper c.
Proof. each_char c. Qed.

Lemma white_upper (c : ascii) : is_white (upper c) = is_white c.
Proof. each_char c. Qed.

Lemma toUpperCase_idem (s : string) : toUpperCase (toUpperCase s) = toUpperCase s.
Proof.
  induction s as [| c s IH]; [reflexivity |]. cbn [toUpperCase].
  now rewrite upper_idem, IH.
Qed.

Lemma trimStart_upper (s : string) :
  trimStart (toUpperCase s) = toUpperCase (trimStart s).
Proof.
  induction s as [| c s IH]; [reflexivity |]. cbn [toUpperCase trimStart].
  rewrite white_upper. now destruct (is_white c).
Qed.

Lemma trimEnd_upper (s : string) :
  trimEnd (toUpperCase s) = toUpperCase (trimEnd s).
Proof.
  induction s as [| c s IH]; [reflexivity |]. cbn [toUpperCase trimEnd].
  rewrite IH, white_upper.
  destruct (trimEnd s); cbn [toUpperCase]; [now destruct (is_white c) | reflexivity].
Qed.

Lemma trim_toUpperCase (s : string) : trim (toUpperCase s) = toUpperCase (trim s).
Proof. unfold trim. now rewrite trimStart_upper, trimEnd_upper. Qed.

Lemma trimStart_stops (s : string) : stops is_white (trimStart s) = true.
Proof.
  induction s as [| c s IH]; [reflexivity |]. cbn [trimStart].
  destruct (is_white c) eqn:E; [exact IH |]. cbn [stops]. now rewrite E.
Qed.

Lemma trimStart_fixed (s : string) : stops is_white s = true -> trimStart s = s.
Proof.
  destruct s as [| c s]; [reflexivity |]. cbn [stops trimStart].
  intros H%negb_true_iff. now rewrite H.
Qed.

Lemma trimEnd_idem (s : string) : trimEnd (trimEnd s) = trimEnd s.
Proof.
  induction s as [| c s IH]; [reflexivity |]. cbn [trimEnd].
  destruct (trimEnd s) as [| x r] eqn:E.
  - destruct (is_white c) eqn:Hc; [reflexivity |]. cbn [trimEnd]. now rewrite Hc.
  - cbn [trimEnd] in *. now rewrite IH.
Qed.

Lemma trimEnd_stops (s : string) :
  stops is_white s = true -> stops is_white (trimEnd s) = true.
Proof.
  destruct s as [| c s]; [reflexivity |]. cbn [stops trimEnd].
  intros H. pose proof H as Hc. apply negb_true_iff in Hc. rewrite Hc.
  now destruct (trimEnd s).
Qed.

Lemma trim_idem (s : string) : trim (trim s) = trim s.
Proof.
  unfold trim.
  rewrite (trimStart_fixed (trimEnd (trimStart s))).
  - apply trimEnd_idem.
  - apply trimEnd_stops, trimStart_stops.
Qed.

Lemma toUpperCase_empty (s : string) : toUpperCase s = "" -> s = "".
Proof. now destruct s. Qed.

Lemma code_of_code (s : string) :
  trim s <> "" -> code_of (trim (toUpperCase s)) = code_of s.
Proof.
  intros Hs. unfold code_of, or_NSW.
  destruct (String.eqb_spec s "") as [-> | _]; [now elim Hs |].
  destruct (String.eqb_spec (trim (toUpperCase s)) "") as [E | _].
  - rewrite trim_toUpperCase in E. now apply toUpperCase_empty in E.
  - now rewrite trim_toUpperCase, trim_idem, !trim_toUpperCase, toUpperCase_idem.
Qed.

Lemma calcStampDuty_code (p : number) (s1 s2 : string) :
  code_of s1 = code_of s2 -> calcStampDuty p s1 = calcStampDuty p s2.
Proof. unfold calcStampDuty, code_of. now intros ->. Qed.

(** X17: the state may be written in any letter case and with blanks
    around it: the duty and the whole record are those of its code in
    capital letters without the blanks. *)
Theorem state_is_normalised (h : host) (input : gmap string value)
    (isSMSF : value) (p : number) (s : string) :
  trim s <> "" ->
  calcStampDuty p s = calcStampDuty p (trim (toUpperCase s)) /\
  calculateCashflow h input (VStr s) isSMSF
  = calculateCashflow h input (VStr (trim (toUpperCase s))) isSMSF.
Proof.
  intros Hs. pose proof (code_of_code s Hs) as Hcode. split.
  - now apply calcStampDuty_code.
  - unfold calculateCashflow. now rewrite !state_code_string, Hcode.
Qed.

Lemma state_is_normalised_witness :
  calcStampDuty 600000 " vic " = calcStampDuty 600000 "VIC" /\
  calculateCashflow sample_host scenario_input (VStr " vic ") (VBool false)
  = calculateCashflow sample_host scenario_input (VStr "VIC") (VBool false).
Proof.
  apply (state_is_normalised sample_host scenario_input (VBool false) 600000 " vic ").
  discriminate.
Defined.

Lemma blank_code (s : string) : trim s = "" -> code_of s = "NSW" \/ code_of s = "".
Proof.
  intros Hs. unfold code_of, or_NSW.
  destruct (String.eqb_spec s "") as [-> | _]; [now left |]. right.
  now rewrite trim_toUpperCase, Hs.
Qed.

Lemma locals_of_blank_code (input : gmap string value) (isSMSF : value) :
  cashflow_locals input "" isSMSF = cashflow_locals input "NSW" isSMSF.
Proof.
  assert (Hins : entry_or_else (LANDLORD_INS !! "") 1500
                 = entry_or_else (LANDLORD_INS !! "NSW") 1500)
    by (vm_compute; reflexivity).
  assert (Hmgmt : entry_or_else (MGMT_FEE_PCT !! "") 0.055
                  = entry_or_else (MGMT_FEE_PCT !! "NSW") 0.055)
    by (vm_compute; reflexivity).
  assert (Hduty : forall p, calcStampDuty p "" = calcStampDuty p "NSW")
    by (intros p; now apply calcStampDuty_code).
  assert (Hfee : forall p, calcMortgageFee "" p = calcMortgageFee "NSW" p)
    by reflexivity.
  unfold cashflow_locals. now rewrite Hins, Hmgmt, Hduty, Hfee.
Qed.

(** X18: a state of blanks only is NSW throughout the calculator, as a
    missing state is; [calcStampDuty] called by itself with such a state
    falls back to 4% of the price. *)
Theorem blank_state_is_NSW (h : host) (input : gmap string value)
    (isSMSF : value) (p : number) (s : string) :
  trim s = "" ->
  calculateCashflow h input (VStr s) isSMSF
  = calculateCashflow h input (VStr "NSW") isSMSF /\
  (s <> "" -> calcStampDuty p s = p * 0.04).
Proof.
  intros Hs. split.
  - unfold calculateCashflow. rewrite !state_code_string.
    change (code_of "NSW") with "NSW".
    destruct (blank_code s Hs) as [-> | ->]; [reflexivity |].
    now rewrite locals_of_blank_code.
  - intros Hne. unfold calcStampDuty.
    assert (Hcode : trim (toUpperCase (or_NSW s)) = "").
    { unfold or_NSW. destruct (String.eqb_spec s ""); [contradiction |].
      now rewrite trim_toUpperCase, Hs. }
    now rewrite Hcode.
Qed.

Lemma blank_state_is_NSW_witness :
  calculateCashflow sample_host scenario_input (VStr "  ") (VBool false)
  = calculateCashflow sample_host scenario_input (VStr "NSW") (VBool false) /\
  calcStampDuty 600000 "  " = 600000 * 0.04.
Proof.
  destruct (blank_state_is_NSW sample_host scenario_input (VBool false) 600000 "  ")
    as [H1 H2]; [reflexivity |].
  split; [exact H1 | apply H2; discriminate].
Defined.

(** X19: the state enters the record only through four defaults: with the
    stamp duty, the registration fee, the landlord insurance and the
    management fee given in the input, the record is the same for every
    state. *)
Theorem state_enters_through_four_defaults (h : host) (input : gmap string value)
    (isSMSF : value) (s1 s2 : string) :
  not_null (get input "stampDuty") = true ->
  not_null (get input "mortgageFee") = true ->
  not_null (get input "landlordInsAnnually") = true ->
  not_null (get input "mgmtFeePercent") = true ->
  calculateCashflow h input (VStr s1) isSMSF
  = calculateCashflow h input (VStr s2) isSMSF.
Proof.
  intros Hduty Hfee Hins Hmgmt.
  unfold calculateCashflow. rewrite !state_code_string.
  do 2 f_equal. unfold cashflow_locals, num_or, pct_or.
  now rewrite Hduty, Hfee, Hins, Hmgmt.
Qed.

Lemma state_enters_through_four_defaults_witness :
  calculateCashflow sample_host
    (<["stampDuty" := VNum 20000]> (<["mortgageFee" := VNum 600]>
       (<["landlordInsAnnually" := VNum 1500]> (<["mgmtFeePercent" := VNum 0.07]>
          scenario_input))))
    (VStr "WA") (VBool false)
  = calculateCashflow sample_host
      (<["stampDuty" := VNum 20000]> (<["mortgageFee" := VNum 600]>
         (<["landlordInsAnnually" := VNum 1500]> (<["mgmtFeePercent" := VNum 0.07]>
            scenario_input))))
      (VStr "QLD") (VBool false).
Proof.
  apply state_enters_through_four_defaults; vm_compute; reflexivity.
Defined.

(** ** More on the record *)

Lemma calculateCashflow_returns (h : host) (input : gmap string value)
    (state isSMSF : value) (out : list (string * value)) :
  calculateCashflow h input state isSMSF = Return out ->
  exists st, out = cashflow_record h input isSMSF (cashflow_locals input st isSMSF).
Proof.
  unfold calculateCashflow. destruct (state_code state) as [st | e]; [| discriminate].
  intros [= <-]. now exists st.
Qed.

(** X20: with no higher rent given (absent, 0 or unreadable) the
    higher-rent column of the record repeats the lower-rent column: rents,
    yield and cashflows before and after tax. *)
Theorem single_rent_fills_both_columns (h : host) (input : gmap string value)
    (state isSMSF : value) (out : list (string * value)) :
  Num.truthy (num (get input "higherRentWeekly")) = false ->
  calculateCashflow h input state isSMSF = Return out ->
  Forall (fun '(high, low) => field high out = field low out) rent_tier_fields.
Proof.
  intros Hhigh [st ->]%calculateCashflow_returns.
  set (L := cashflow_locals input st isSMSF).
  assert (Hwk : higherRentWk L = lowerRentWk L)
    by (subst L; cbn [higherRentWk lowerRentWk cashflow_locals];
        unfold num_or_else; now rewrite Hhigh).
  assert (Hann : higherRentAnn L = lowerRentAnn L)
    by (subst L; cbn [higherRentAnn lowerRentAnn cashflow_locals];
        unfold num_or_else; now rewrite Hhigh).
  assert (Hyield : yieldHigh L = yieldLow L)
    by (subst L; cbn [yieldHigh yieldLow cashflow_locals];
        unfold num_or_else; now rewrite Hhigh).
  assert (Hbt : cfBTHighAnn L = cfBTLowAnn L)
    by (subst L; cbn [cfBTHighAnn cfBTLowAnn cashflow_locals];
        unfold num_or_else; now rewrite Hhigh).
  assert (Hat : cfATHighAnn L = cfATLowAnn L)
    by (subst L; cbn [cfATHighAnn cfATLowAnn cashflow_locals];
        unfold num_or_else; now rewrite Hhigh).
  clearbody L. unfold rent_tier_fields.
  repeat (constructor; [read_field; now rewrite ?Hwk, ?Hann, ?Hyield, ?Hbt, ?Hat |]).
  constructor.
Qed.

Lemma single_rent_fills_both_columns_witness :
  exists out,
    calculateCashflow sample_host scenario_input (VStr "NSW") (VBool false)
    = Return out /\
    Forall (fun '(high, low) => field high out = field low out) rent_tier_fields.
Proof.
  eexists. split; [reflexivity |].
  apply (single_rent_fills_both_columns sample_host scenario_input
           (VStr "NSW") (VBool false)); reflexivity.
Defined.






Lemma mul_by_one (x : number) : x * (1 - 0) ≈ x.
Proof. destruct x as [q | | |]; cbn; try exact I. ring. Qed.

Lemma equiv_w (a b : number) : a ≈ b -> w a ≈ w b.
Proof.
  destruct a as [x | | |], b as [y | | |]; cbn [Num.equiv]; try contradiction;
    try (intros _; exact I).
  intros H. unfold w. cbn. now rewrite H.
Qed.

Lemma equiv_m (a b : number) : a ≈ b -> m a ≈ m b.
Proof.
  destruct a as [x | | |], b as [y | | |]; cbn [Num.equiv]; try contradiction;
    try (intros _; exact I).
  intros H. unfold m. cbn. now rewrite H.
Qed.

Lemma equiv_abs (a b : number) : a ≈ b -> Num.abs a ≈ Num.abs b.
Proof.
  destruct a as [x | | |], b as [y | | |]; cbn [Num.equiv Num.abs]; try contradiction;
    try (intros _; exact I).
  intros H. now rewrite H.
Qed.

(** X23: an SMSF record without a tax bracket in the input is taxed at
    0%: each cashflow after tax shows the amount of the cashflow before
    tax. *)
Theorem smsf_cashflow_is_untaxed (h : host) (input : gmap string value)
    (state isSMSF : value) (out : list (string * value)) :
  truthy isSMSF = true ->
  not_null (get input "taxBracket") = false ->
  calculateCashflow h input state isSMSF = Return out ->
  Forall (fun '(after, before) => field after out = field before out)
    after_tax_fields.
Proof.
  intros Hflag Htax [st ->]%calculateCashflow_returns.
  set (L := cashflow_locals input st isSMSF).
  assert (Hlow : cfATLowAnn L ≈ cfBTLowAnn L).
  { subst L. cbn [cfATLowAnn cfBTLowAnn cashflow_locals].
    rewrite Hflag, (pct_or_absent _ _ _ Htax). apply mul_by_one. }
  assert (Hhigh : cfATHighAnn L ≈ cfBTHighAnn L).
  { subst L. cbn [cfATHighAnn cfBTHighAnn cashflow_locals].
    rewrite Hflag, (pct_or_absent _ _ _ Htax). apply mul_by_one. }
  clearbody L. unfold after_tax_fields.
  repeat (constructor;
          [ read_field; f_equal; apply fmt_equiv, equiv_abs;
            first [ apply equiv_w; assumption | apply equiv_m; assumption
                  | assumption ] |]).
  constructor.
Qed.

Lemma smsf_cashflow_is_untaxed_witness :
  exists out,
    calculateCashflow sample_host scenario_input (VStr "NSW") (VBool true)
    = Return out /\
    Forall (fun '(after, before) => field after out = field before out)
      after_tax_fields.
Proof.
  eexists. split; [reflexivity |].
  apply (smsf_cashflow_is_untaxed sample_host scenario_input (VStr "NSW")
           (VBool true)); reflexivity.
Defined.

(** X24: the first version of the calculator, which reads the stamp duty
    and the registration fee from the input, and the second version, which
    computes them when they are missing, return the same record whenever
    both are given. *)
Theorem versions_agree_on_given_costs (h : host) (input : gmap string value)
    (state isSMSF : value) :
  not_null (get input "stampDuty") = true ->
  not_null (get input "mortgageFee") = true ->
  V1.calculateCashflow h input state isSMSF
  = calculateCashflow h input state isSMSF.
Proof.
  intros Hduty Hfee. unfold V1.calculateCashflow, calculateCashflow.
  destruct (state_code state) as [st | e]; [| reflexivity].
  assert (HL : V1.cashflow_locals input st isSMSF = cashflow_locals input st isSMSF)
    by (unfold V1.cashflow_locals, cashflow_locals, num_or;
        rewrite Hduty, Hfee; reflexivity).
  now rewrite HL.
Qed.

Lemma versions_agree_on_given_costs_witness :
  V1.calculateCashflow sample_host
    (<["stampDuty" := VNum 22000]> (<["mortgageFee" := VStr "$600"]> scenario_input))
    (VStr "NSW") (VBool false)
  = calculateCashflow sample_host
      (<["stampDuty" := VNum 22000]> (<["mortgageFee" := VStr "$600"]> scenario_input))
      (VStr "NSW") (VBool false).
Proof.
  apply versions_agree_on_given_costs; vm_compute; reflexivity.
Defined.

Lemma digit_not_hyphen (c : ascii) (s : string) :
  is_digit c = true -> String.prefix "-" (String c s) = false.
Proof. each_char c. Qed.

Lemma fmt_abs_unsigned (a : number) : String.prefix "-" (fmt (Num.abs a)) = false.
Proof.
  destruct a as [q | | |]; try reflexivity.
  unfold fmt, Num.abs, toLocaleString2, minus_sign.
  assert (Hsign : Qle_bool 0 (Qabs q) = true)
    by (apply Qle_bool_iff, Qabs_nonneg).
  rewrite Hsign, append_nil.
  destruct (digits_head (scaled 2 (Qabs q) / 100)) as (c & s & -> & Hc).
  cbn [group]. rewrite append_cons. now apply digit_not_hyphen.
Qed.

(** X25: the twelve cashflow lines show amounts without a sign: a deficit
    is displayed as the same text as a surplus of the same size. *)
Theorem cashflow_lines_are_unsigned (h : host) (input : gmap string value)
    (state isSMSF : value) (out : list (string * value)) :
  calculateCashflow h input state isSMSF = Return out ->
  Forall (fun k => exists s, field k out = VStr s /\ String.prefix "-" s = false)
    cashflow_fields.
Proof.
  intros [st ->]%calculateCashflow_returns.
  set (L := cashflow_locals input st isSMSF). clearbody L.
  unfold cashflow_fields.
  repeat (constructor;
          [ read_field; eexists; split; [reflexivity | apply fmt_abs_unsigned] |]).
  constructor.
Qed.

Lemma cashflow_lines_are_unsigned_witness :
  exists out,
    calculateCashflow sample_host scenario_input (VStr "NSW") (VBool false)
    = Return out /\
    field "cfBeforeTaxLowerAnnually" out = VStr "13,430.00" /\
    Forall (fun k => exists s, field k out = VStr s /\ String.prefix "-" s = false)
      cashflow_fields.
Proof.
  eexists. split; [reflexivity |]. split; [read_field; vm_compute; reflexivity |].
  apply (cashflow_lines_are_unsigned sample_host scenario_input (VStr "NSW")
           (VBool false)). reflexivity.
Defined.

(** ** The cashflow inputs of the automatic report *)

Lemma gtb_truthy (x : number) : (x >? 0) = true -> Num.truthy x = true.
Proof.
  destruct x as [q | | |]; try discriminate; try reflexivity.
  cbn [Num.gtb Num.ltb Num.truthy]. intros H%negb_true_iff.
  apply negb_true_iff. destruct (Num.is_zero q) eqn:Z; [| reflexivity].
  apply is_zero_iff in Z.
  assert (Hle : Qle_bool q 0 = true) by (apply Qle_bool_iff; rewrite Z; lra).
  congruence.
Qed.

Lemma gtb_add_zero (x : number) : (x >? 0) = true -> (x + 0 >? 0) = true.
Proof.
  destruct x as [q | | |]; try discriminate; try reflexivity.
  cbn [Num.gtb Num.ltb Num.add]. intros H%negb_true_iff.
  apply negb_true_iff. destruct (Qle_bool (q + 0) 0) eqn:E; [| reflexivity].
  apply Qle_bool_iff in E.
  assert (Hle : Qle_bool q 0 = true) by (apply Qle_bool_iff; lra).
  congruence.
Qed.

(** X26: the cashflow inputs that [mapScraperToReport] builds by itself
    carry a price and a lower rent above 0 and a higher rent that is not
    0 or NaN (the lower rent stands in for a missing one), so that the
    calculator divides by a positive base for the yields. *)
Theorem built_cashflowInputs_are_positive (h : host)
    (input prop c : gmap string value) (st : string) (isSMSF : value) :
  cashflowInputs h input prop None None = Some c ->
  let L := cashflow_locals c st isSMSF in
  (price L >? 0) = true /\ (lowerRentWk L >? 0) = true /\
  Num.truthy (higherRentWk L) = true /\ (yieldBase L >? 0) = true.
Proof.
  unfold cashflowInputs. cbv beta iota zeta.
  destruct (_ && _) eqn:Hguard; [| discriminate].
  apply andb_true_iff in Hguard as [Hprice Hrent].
  unfold rentalHigh.
  set (P := purchasePrice input prop) in *.
  set (R := rentalLow h input prop) in *.
  set (X := parseRental h _).
  set (D := given input "stampDuty"). set (F := given input "mortgageFee").
  clearbody P R X D F. intros [= Hc].
  assert (Hp : get c "purchasePrice" = VNum P)
    by (rewrite <- Hc; vm_compute; reflexivity).
  assert (Hl : get c "lowerRentWeekly" = VNum R)
    by (rewrite <- Hc; vm_compute; reflexivity).
  assert (Hh : get c "higherRentWeekly" = VNum (num_or_else X R))
    by (rewrite <- Hc; vm_compute; reflexivity).
  assert (Hr : get c "renovation" = VUndefined)
    by (rewrite <- Hc; vm_compute; reflexivity).
  clear Hc.
  cbn [price lowerRentWk higherRentWk yieldBase cashflow_locals].
  rewrite Hp, Hl, Hh, Hr. cbn [num truthy negb].
  repeat split; try assumption.
  - unfold num_or_else. destruct (Num.truthy X) eqn:E.
    + now rewrite E.
    + now rewrite !(gtb_truthy R Hrent).
  - now apply gtb_add_zero.
Qed.

Lemma built_cashflowInputs_are_positive_witness :
  cashflowInputs sample_host scraped_input ∅ None None = Some built_input /\
  (price (cashflow_locals built_input "WA" (VBool false)) >? 0) = true /\
  (lowerRentWk (cashflow_locals built_input "WA" (VBool false)) >? 0) = true /\
  Num.truthy (higherRentWk (cashflow_locals built_input "WA" (VBool false))) = true /\
  (yieldBase (cashflow_locals built_input "WA" (VBool false)) >? 0) = true.
Proof.
  split; [vm_compute; reflexivity |].
  apply (built_cashflowInputs_are_positive sample_host scraped_input ∅ built_input
           "WA" (VBool false)).
  vm_compute. reflexivity.
Defined.
